(** * mi_grafo: the in-memory task-graph store of [app.py]

    A shallow embedding of class [GraphData] (the store behind the REST
    handlers) and of [get_graph_stats], with the store's contract proved
    over it.

    - A node or an edge is a Python [dict] from field names to arbitrary
      values: a [gmap string value].  The order of the fields inside one
      record is not modelled (nothing in the store observes it).
    - [nodes_dict] and [edges_dict] are Python dicts keyed by ints whose
      iteration order (insertion order) is observable through
      [get_nodes_list], [get_edges_list] and the float sums of
      [get_graph_stats]: they are association lists, see [PyDict].
    - Python exceptions are explicit: a computation that can raise returns
      a [result].
    - A method [m(self, args)] becomes [m args s], which returns what the
      method returns together with the store after the call.
    - In the methods, ids are Python ints ([Z]) and updates are dicts with
      text keys, as annotated; the other arguments are arbitrary values.
      Python does not check the annotations, and the handlers pass on what
      the request body held: [add_edge_dyn] is [add_edge] with endpoints of
      any kind, [update_edge_pairs] is [update_edge] with a list of pairs,
      and the runs of [call]s include the former.
    - [sum] is modelled as the plain left-to-right sum.  For ints it is
      exact; for floats an interpreter may compensate the rounding, so the
      theorems state of a float total only that it is a float, and its value
      only where the sum is exact. *)

From Stdlib Require Import ZArith.
From Corelib Require Import PrimFloat.
From Stdlib Require Import SpecFloat FloatOps.
From stdpp Require Import base option list list_numbers sorting gmap strings.

Local Open Scope Z_scope.

(** ** Python values *)

(** The values a record field can hold ([Dict[str, Any]]): what the JSON
    bodies of the handlers decode to, and what the store itself writes
    ([None], ints, the empty dict).  Python floats are IEEE binary64, as
    are Rocq's primitive floats. *)
#[warnings="-register-all"]
Inductive value : Type :=
  | VNone
  | VBool (b : bool)
  | VInt (z : Z)
  | VFloat (f : float)
  | VStr (s : string)
  | VList (l : list value)
  | VDict (d : gmap string value).

Abbreviation record := (gmap string value).

(** ** Exceptions *)

Inductive exn : Type := KeyError | TypeError | OverflowError.

Inductive result (A : Type) : Type :=
  | Ok (a : A)
  | Raise (e : exn).
Arguments Ok {A} a.
Arguments Raise {A} e.

#[global] Instance result_ret : MRet result := @Ok.
#[global] Instance result_bind : MBind result := λ A B f m,
  match m with
  | Ok a => f a
  | Raise e => Raise e
  end.

Definition is_Ok {A} (m : result A) : bool :=
  match m with Ok _ => true | Raise _ => false end.

(** ** Numbers: [==] against an int, [+] and [sum] *)

(** [float(z)] for a Python int: the nearest binary64 (ties to even);
    [OverflowError] when the int is too large for a float. *)
Definition float_of_int (z : Z) : result float :=
  let f := SF2Prim (binary_normalize prec emax z 0 false) in
  if is_infinity f then Raise OverflowError else Ok f.

(** [f == n] for a float and an int compares the exact values. *)
Definition float_eq_int (f : float) (n : Z) : bool :=
  match Prim2SF f with
  | S754_zero _ => n =? 0
  | S754_finite s m e =>
      let z := if s then Z.neg m else Z.pos m in
      if 0 <=? e then z * 2 ^ e =? n else z =? n * 2 ^ (- e)
  | S754_infinity _ | S754_nan => false
  end.

(** The numeric tower: [bool] is a subclass of [int]. *)
Inductive number : Type := NInt (z : Z) | NFloat (f : float).

Definition as_number (v : value) : option number :=
  match v with
  | VBool b => Some (NInt (Z.b2z b))
  | VInt z => Some (NInt z)
  | VFloat f => Some (NFloat f)
  | _ => None
  end.

(** [v == n] where [n] is an int. *)
Definition py_eq_int (v : value) (n : Z) : bool :=
  match as_number v with
  | Some (NInt z) => z =? n
  | Some (NFloat f) => float_eq_int f n
  | None => false
  end.

Definition number_add (a b : number) : result value :=
  match a, b with
  | NInt x, NInt y => Ok (VInt (x + y))
  | NInt x, NFloat y => x' ← float_of_int x; Ok (VFloat (x' + y)%float)
  | NFloat x, NInt y => y' ← float_of_int y; Ok (VFloat (x + y')%float)
  | NFloat x, NFloat y => Ok (VFloat (x + y)%float)
  end.

(** [a + b]. *)
Definition py_add (a b : value) : result value :=
  match as_number a, as_number b with
  | Some x, Some y => number_add x y
  | _, _ =>
      match a, b with
      | VStr s, VStr t => Ok (VStr (s +:+ t))
      | VList l, VList m => Ok (VList (l ++ m))
      | _, _ => Raise TypeError
      end
  end.

(** [sum(iterable)]: [0 + v1 + v2 + ...] with Python's [+], from
    [start = 0], left to right.  Sums of ints are exact; a sum of floats is
    rounded at every addition (an interpreter that compensates the rounding
    of float sums can differ from it in the last bits of a sum of several
    floats). *)
Fixpoint sum_from (acc : value) (l : list value) : result value :=
  match l with
  | [] => Ok acc
  | v :: l' => acc' ← py_add acc v; sum_from acc' l'
  end.

Definition py_sum (l : list value) : result value := sum_from (VInt 0) l.

(** ** Insertion-ordered dicts with int keys *)

(** A Python dict [Dict[int, V]] as the list of its items in insertion
    order.  A Python dict holds a key once: lists with a repeated key are
    not dicts (see [PyDict.wf]). *)
Module PyDict.
Section ops.
Context {V : Type}.

(** [d.get(k)] *)
Fixpoint get (k : Z) (d : list (Z * V)) : option V :=
  match d with
  | [] => None
  | (k', v) :: d' => if decide (k' = k) then Some v else get k d'
  end.

(** [k in d] *)
Definition contains (k : Z) (d : list (Z * V)) : bool :=
  match get k d with Some _ => true | None => false end.

(** [d[k] = v]: an existing key keeps its place, a new key goes last. *)
Fixpoint setitem (k : Z) (v : V) (d : list (Z * V)) : list (Z * V) :=
  match d with
  | [] => [(k, v)]
  | (k', v') :: d' =>
      if decide (k' = k) then (k, v) :: d' else (k', v') :: setitem k v d'
  end.

(** [del d[k]] for a key that is in [d]. *)
Definition delitem (k : Z) (d : list (Z * V)) : list (Z * V) :=
  filter (λ kv, kv.1 ≠ k) d.

Definition keys (d : list (Z * V)) : list Z := d.*1.
Definition values (d : list (Z * V)) : list V := d.*2.
Definition len (d : list (Z * V)) : Z := Z.of_nat (length d).

(** no key twice *)
Definition wf (d : list (Z * V)) : Prop := NoDup (keys d).
End ops.
End PyDict.

(** ** The store *)

Record GraphData : Type := mkGraphData {
  nodes_dict : list (Z * record);
  edges_dict : list (Z * record);
  node_counter : Z;
  edge_counter : Z
}.

(** [GraphData.__init__] *)
Definition init : GraphData :=
  {| nodes_dict := []; edges_dict := []; node_counter := 1; edge_counter := 1 |}.

Definition get_nodes_list (s : GraphData) : list record :=
  PyDict.values (nodes_dict s).

Definition get_edges_list (s : GraphData) : list record :=
  PyDict.values (edges_dict s).

(** [add_node(name, x=100, y=100)]; the returned dict is the stored one. *)
Definition add_node (name x y : value) (s : GraphData) : record * GraphData :=
  let node_properties : record :=
    list_to_map [("id", VInt (node_counter s)); ("name", name);
                 ("x", x); ("y", y);
                 ("created_at", VNone); ("metadata", VDict ∅)] in
  (node_properties,
   {| nodes_dict := PyDict.setitem (node_counter s) node_properties (nodes_dict s);
      edges_dict := edges_dict s;
      node_counter := node_counter s + 1;
      edge_counter := edge_counter s |}).

(** [update_node]: [dict.update] overwrites the fields of [updates] and
    keeps the others. *)
Definition update_node (node_id : Z) (updates : record) (s : GraphData)
  : option record * GraphData :=
  match PyDict.get node_id (nodes_dict s) with
  | Some node =>
      let node' := updates ∪ node in
      (Some node',
       {| nodes_dict := PyDict.setitem node_id node' (nodes_dict s);
          edges_dict := edges_dict s;
          node_counter := node_counter s;
          edge_counter := edge_counter s |})
  | None => (None, s)
  end.

(** [edge['from'] == node_id or edge['to'] == node_id]: a missing field
    raises [KeyError], and [or] reads ['to'] only when the first test
    fails. *)
Definition incident (node_id : Z) (edge : record) : result bool :=
  match edge !! "from" with
  | None => Raise KeyError
  | Some f =>
      if py_eq_int f node_id then Ok true
      else match edge !! "to" with
           | None => Raise KeyError
           | Some t => Ok (py_eq_int t node_id)
           end
  end.

(** The list comprehension of [delete_node] over [edges_dict.items()]. *)
Fixpoint edges_to_remove (node_id : Z) (items : list (Z * record))
  : result (list Z) :=
  match items with
  | [] => Ok []
  | (edge_id, edge) :: rest =>
      b ← incident node_id edge;
      ids ← edges_to_remove node_id rest;
      Ok (if b : bool then edge_id :: ids else ids)
  end.

(** [delete_node]: the node is deleted first, so an exception in the list
    comprehension leaves the store without the node and with all edges. *)
Definition delete_node (node_id : Z) (s : GraphData) : result bool * GraphData :=
  if PyDict.contains node_id (nodes_dict s) then
    let nodes' := PyDict.delitem node_id (nodes_dict s) in
    match edges_to_remove node_id (edges_dict s) with
    | Raise e =>
        (Raise e,
         {| nodes_dict := nodes'; edges_dict := edges_dict s;
            node_counter := node_counter s; edge_counter := edge_counter s |})
    | Ok ids =>
        (Ok true,
         {| nodes_dict := nodes';
            edges_dict := foldl (λ d edge_id, PyDict.delitem edge_id d) (edges_dict s) ids;
            node_counter := node_counter s; edge_counter := edge_counter s |})
    end
  else (Ok false, s).

(** [add_edge(from_node, to_node, duration=0, cost=0, prerequisites='',
    postrequisites='')] *)
Definition add_edge (from_node to_node : Z)
    (duration cost prerequisites postrequisites : value) (s : GraphData)
  : option record * GraphData :=
  if negb (PyDict.contains from_node (nodes_dict s))
     || negb (PyDict.contains to_node (nodes_dict s))
  then (None, s)
  else
    let edge_properties : record :=
      list_to_map [("id", VInt (edge_counter s));
                   ("from", VInt from_node); ("to", VInt to_node);
                   ("duration", duration); ("cost", cost);
                   ("prerequisites", prerequisites);
                   ("postrequisites", postrequisites);
                   ("weight", duration); ("metadata", VDict ∅)] in
    (Some edge_properties,
     {| nodes_dict := nodes_dict s;
        edges_dict := PyDict.setitem (edge_counter s) edge_properties (edges_dict s);
        node_counter := node_counter s;
        edge_counter := edge_counter s + 1 |}).

Definition update_edge (edge_id : Z) (updates : record) (s : GraphData)
  : option record * GraphData :=
  match PyDict.get edge_id (edges_dict s) with
  | Some edge =>
      let edge1 := updates ∪ edge in
      let edge2 :=
        match updates !! "duration" with
        | Some d => <["weight" := d]> edge1
        | None => edge1
        end in
      (Some edge2,
       {| nodes_dict := nodes_dict s;
          edges_dict := PyDict.setitem edge_id edge2 (edges_dict s);
          node_counter := node_counter s;
          edge_counter := edge_counter s |})
  | None => (None, s)
  end.

Definition delete_edge (edge_id : Z) (s : GraphData) : bool * GraphData :=
  if PyDict.contains edge_id (edges_dict s) then
    (true,
     {| nodes_dict := nodes_dict s;
        edges_dict := PyDict.delitem edge_id (edges_dict s);
        node_counter := node_counter s;
        edge_counter := edge_counter s |})
  else (false, s).

Definition get_node_by_id (node_id : Z) (s : GraphData) : option record :=
  PyDict.get node_id (nodes_dict s).

Definition get_edge_by_id (edge_id : Z) (s : GraphData) : option record :=
  PyDict.get edge_id (edges_dict s).

Definition clear_all (s : GraphData) : GraphData :=
  {| nodes_dict := []; edges_dict := []; node_counter := 1; edge_counter := 1 |}.

(** ** Statistics *)

Record Stats : Type := mkStats {
  total_nodes : Z;
  total_edges : Z;
  next_node_id : Z;
  next_edge_id : Z;
  total_cost : value;
  total_duration : value
}.

(** [edge.get(key, 0)] *)
Definition field_or_zero (key : string) (edge : record) : value :=
  default (VInt 0) (edge !! key).

(** [get_graph_stats], up to [jsonify]: the sums are evaluated in the
    order of the dict literal, cost first. *)
Definition get_graph_stats (s : GraphData) : result Stats :=
  c ← py_sum (field_or_zero "cost" <$> PyDict.values (edges_dict s));
  d ← py_sum (field_or_zero "duration" <$> PyDict.values (edges_dict s));
  Ok {| total_nodes := PyDict.len (nodes_dict s);
        total_edges := PyDict.len (edges_dict s);
        next_node_id := node_counter s;
        next_edge_id := edge_counter s;
        total_cost := c;
        total_duration := d |}.

(** ** Sequences of calls *)

(** The mutating methods of the store, with their arguments. *)
Inductive op : Type :=
  | AddNode (name x y : value)
  | UpdateNode (node_id : Z) (updates : record)
  | DeleteNode (node_id : Z)
  | AddEdge (from_node to_node : Z)
            (duration cost prerequisites postrequisites : value)
  | UpdateEdge (edge_id : Z) (updates : record)
  | DeleteEdge (edge_id : Z)
  | ClearAll.

(** The store after one call (whatever it returned or raised). *)
Definition exec (o : op) (s : GraphData) : GraphData :=
  match o with
  | AddNode name x y => (add_node name x y s).2
  | UpdateNode node_id updates => (update_node node_id updates s).2
  | DeleteNode node_id => (delete_node node_id s).2
  | AddEdge f t d c p q => (add_edge f t d c p q s).2
  | UpdateEdge edge_id updates => (update_edge edge_id updates s).2
  | DeleteEdge edge_id => (delete_edge edge_id s).2
  | ClearAll => clear_all s
  end.

Definition execs (ops : list op) (s : GraphData) : GraphData :=
  foldl (λ s o, exec o s) s ops.

(** The states a store instance can be in. *)
Definition reachable (s : GraphData) : Prop := ∃ ops, s = execs ops init.

Definition is_clear (o : op) : bool :=
  match o with ClearAll => true | _ => false end.

Definition is_add_node (o : op) : bool :=
  match o with AddNode _ _ _ => true | _ => false end.

(** An [add_edge] call whose endpoints are both in the store. *)
Definition is_add_edge_ok (o : op) (s : GraphData) : bool :=
  match o with
  | AddEdge f t _ _ _ _ =>
      PyDict.contains f (nodes_dict s) && PyDict.contains t (nodes_dict s)
  | _ => false
  end.

(** The ['id'] fields of the nodes returned by the [add_node] calls of a
    run, in call order. *)
Fixpoint node_ids_assigned (ops : list op) (s : GraphData) : list (option value) :=
  match ops with
  | [] => []
  | o :: ops' =>
      match o with
      | AddNode name x y =>
          (add_node name x y s).1 !! "id" :: node_ids_assigned ops' (exec o s)
      | _ => node_ids_assigned ops' (exec o s)
      end
  end.

(** ** The invariant of the store *)

(** Every edge record has the two fields [delete_node] reads. *)
Definition has_endpoints (edge : record) : Prop :=
  is_Some (edge !! "from") ∧ is_Some (edge !! "to").

Record store_ok (s : GraphData) : Prop := mk_store_ok {
  ok_nodes_wf : PyDict.wf (nodes_dict s);
  ok_edges_wf : PyDict.wf (edges_dict s);
  ok_nodes_lt : Forall (λ k, 1 ≤ k < node_counter s) (PyDict.keys (nodes_dict s));
  ok_edges_lt : Forall (λ k, 1 ≤ k < edge_counter s) (PyDict.keys (edges_dict s));
  ok_endpoints : Forall has_endpoints (PyDict.values (edges_dict s));
  ok_node_counter : 1 ≤ node_counter s;
  ok_edge_counter : 1 ≤ edge_counter s
}.

(** [edge['from'] == node_id or edge['to'] == node_id] on a record that
    has both fields. *)
Definition touches (node_id : Z) (edge : record) : bool :=
  match edge !! "from", edge !! "to" with
  | Some f, Some t => py_eq_int f node_id || py_eq_int t node_id
  | _, _ => false
  end.

(** Neither endpoint of the edge is (Python-)equal to [node_id]. *)
Definition avoids (node_id : Z) (edge : record) : Prop :=
  ∃ f t, edge !! "from" = Some f ∧ edge !! "to" = Some t
         ∧ py_eq_int f node_id = false ∧ py_eq_int t node_id = false.

(** ** Kinds of field values *)

Definition is_float (v : value) : bool :=
  match v with VFloat _ => true | _ => false end.

Definition is_int (v : value) : bool :=
  match v with VInt _ | VBool _ => true | _ => false end.

Definition int_of (v : value) : Z :=
  match v with VInt z => z | VBool b => Z.b2z b | _ => 0 end.

(** The values [get_graph_stats] adds up for one field. *)
Definition column (key : string) (s : GraphData) : list value :=
  field_or_zero key <$> PyDict.values (edges_dict s).

Definition all_ints (l : list value) : bool := forallb is_int l.

(** The exact sum of a list of ints. *)
Definition int_sum (l : list Z) : Z := foldr Z.add 0 l.

(** ** When [sum] is defined *)

Definition is_number (v : value) : bool :=
  match as_number v with Some _ => true | None => false end.

(** [float(z)] does not raise: the int is within the range of floats. *)
Definition fits_float (z : Z) : bool := is_Ok (float_of_int z).

(** The ints (and bools) of a list of values. *)
Definition ints_of (l : list value) : list Z :=
  omap (λ v, match as_number v with Some (NInt z) => Some z | _ => None end) l.

(** The ints that [sum] has to convert to floats when it adds up the
    numbers [l] from the int [acc]: none as long as all are ints; when the
    first float comes, the running total, and every int after it. *)
Fixpoint conversions (acc : Z) (l : list value) : list Z :=
  match l with
  | [] => []
  | v :: l' =>
      match as_number v with
      | Some (NInt z) => conversions (acc + z) l'
      | Some (NFloat _) => acc :: ints_of l'
      | None => []
      end
  end.

(** Every value is a number and every int to convert is within the range
    of floats. *)
Definition sum_defined (l : list value) : bool :=
  forallb is_number l && forallb fits_float (conversions 0 l).

Definition has_float (l : list value) : bool := existsb is_float l.

(** The largest id of a list of assigned ids; ids start at 1, and 0 stands
    for "none assigned yet". *)
Definition max_id (ids : list Z) : Z := foldr Z.max 0 ids.

(** The number of [add_node] calls of a run. *)
Definition add_node_count (ops : list op) : Z :=
  Z.of_nat (length (filter (λ o, is_add_node o = true) ops)).

(** ** Example stores *)

(** The worked example: nodes "A" and "B", then an edge 1 -> 2 with
    duration 3 and cost 10. *)
Definition example_ops : list op :=
  [AddNode (VStr "A") (VInt 100) (VInt 100);
   AddNode (VStr "B") (VInt 100) (VInt 100);
   AddEdge 1 2 (VInt 3) (VInt 10) (VStr "") (VStr "")].

Definition example_store : GraphData := execs example_ops init.

(** The same graph built through the handlers, which pass duration and
    cost through [float(...)]. *)
Definition example_ops_float : list op :=
  [AddNode (VStr "A") (VInt 100) (VInt 100);
   AddNode (VStr "B") (VInt 100) (VInt 100);
   AddEdge 1 2 (VFloat 3) (VFloat 10) (VStr "") (VStr "")].

Definition example_store_float : GraphData := execs example_ops_float init.

(** The worked example with a second edge 2 -> 1 whose duration and cost
    are floats, beside the ints of the first edge. *)
Definition mixed_ops : list op :=
  example_ops ++ [AddEdge 2 1 (VFloat 0.5) (VFloat 0.25) (VStr "") (VStr "")].

Definition mixed_store : GraphData := execs mixed_ops init.

(** [update_edge(1, {'cost': 'abc'})] on the worked example. *)
Definition text_cost_ops : list op :=
  example_ops ++ [UpdateEdge 1 {[ "cost" := VStr "abc" ]}].

Definition text_cost_store : GraphData := execs text_cost_ops init.

(** An update that sets both ['duration'] and ['weight']. *)
Definition duration_and_weight : record :=
  {[ "duration" := VFloat 5; "weight" := VFloat 99 ]}.

(** An update that rewrites ['id'] and adds a field outside the schema. *)
Definition id_and_colour : record :=
  {[ "id" := VInt 7; "colour" := VStr "red" ]}.

(** A run that deletes a node between two additions. *)
Definition add_delete_add : list op :=
  [AddNode (VStr "A") (VInt 0) (VInt 0);
   AddNode (VStr "") (VInt 0) (VInt 0);
   DeleteNode 2;
   UpdateNode 1 id_and_colour;
   AddNode (VStr "C") (VInt 0) (VInt 0)].

(** ** Runs with restricted updates *)

(** The update has no field [key]. *)
Definition lacks (key : string) (updates : record) : bool :=
  match updates !! key with None => true | Some _ => false end.

(** A call that is not an [update_edge] writing ['from'] or ['to']. *)
Definition leaves_endpoints (o : op) : bool :=
  match o with
  | UpdateEdge _ updates => lacks "from" updates && lacks "to" updates
  | _ => true
  end.

(** A call that is not an update writing ['id']. *)
Definition leaves_id (o : op) : bool :=
  match o with
  | UpdateNode _ updates | UpdateEdge _ updates => lacks "id" updates
  | _ => true
  end.

(** A call that is not an [update_edge] writing ['weight'] without
    ['duration']. *)
Definition leaves_weight (o : op) : bool :=
  match o with
  | UpdateEdge _ updates => negb (lacks "duration" updates) || lacks "weight" updates
  | _ => true
  end.

(** The number of edges [delete_node] removes with the node. *)
Definition incident_count (node_id : Z) (s : GraphData) : Z :=
  Z.of_nat (length (filter (λ kv, touches node_id kv.2 = true) (edges_dict s))).

(** A run on the worked example that updates, deletes and adds again. *)
Definition busy_ops : list op :=
  example_ops
  ++ [UpdateEdge 1 {[ "duration" := VFloat 5; "colour" := VStr "red" ]};
      UpdateNode 2 {[ "name" := VStr "B2" ]};
      AddNode (VStr "C") (VInt 0) (VInt 0);
      AddEdge 3 3 (VInt 1) (VInt 1) (VStr "") (VStr "");
      DeleteNode 2;
      AddNode (VStr "D") (VInt 0) (VInt 0)].

Definition busy_store : GraphData := execs busy_ops init.

(** ** Values as dict keys *)

(** The int a float is equal to, if there is one. *)
Definition float_as_int (f : float) : option Z :=
  match Prim2SF f with
  | S754_zero _ => Some 0
  | S754_finite s m e =>
      let z := if s then Z.neg m else Z.pos m in
      if 0 <=? e then Some (z * 2 ^ e)
      else if z mod 2 ^ (- e) =? 0 then Some (z / 2 ^ (- e)) else None
  | S754_infinity _ | S754_nan => None
  end.

(** The int key a value hashes and compares equal to, if there is one;
    lists and dicts are unhashable. *)
Definition key_of (v : value) : result (option Z) :=
  match v with
  | VInt z => Ok (Some z)
  | VBool b => Ok (Some (Z.b2z b))
  | VFloat f => Ok (float_as_int f)
  | VNone | VStr _ => Ok None
  | VList _ | VDict _ => Raise TypeError
  end.

(** [v in d] for a dict with int keys. *)
Definition py_in {V} (v : value) (d : list (Z * V)) : result bool :=
  k ← key_of v;
  Ok (match k with Some k => PyDict.contains k d | None => false end).

(** [add_edge] as the handlers call it, with endpoints that are whatever
    the request body held: the same method, without the assumption that the
    endpoints are ints. *)
Definition add_edge_dyn (from_node to_node : value)
    (duration cost prerequisites postrequisites : value) (s : GraphData)
  : result (option record) * GraphData :=
  match py_in from_node (nodes_dict s) with
  | Raise e => (Raise e, s)
  | Ok false => (Ok None, s)
  | Ok true =>
      match py_in to_node (nodes_dict s) with
      | Raise e => (Raise e, s)
      | Ok false => (Ok None, s)
      | Ok true =>
          let edge_properties : record :=
            list_to_map [("id", VInt (edge_counter s));
                         ("from", from_node); ("to", to_node);
                         ("duration", duration); ("cost", cost);
                         ("prerequisites", prerequisites);
                         ("postrequisites", postrequisites);
                         ("weight", duration); ("metadata", VDict ∅)] in
          (Ok (Some edge_properties),
           {| nodes_dict := nodes_dict s;
              edges_dict :=
                PyDict.setitem (edge_counter s) edge_properties (edges_dict s);
              node_counter := node_counter s;
              edge_counter := edge_counter s + 1 |})
      end
  end.

(** ** Runs of calls with endpoints of any kind *)

(** A call of a mutating method: with arguments of the annotated types, or
    [add_edge] with endpoints of any kind. *)
Inductive call : Type :=
  | Typed (o : op)
  | AddEdgeDyn (from_node to_node : value)
               (duration cost prerequisites postrequisites : value).

Definition exec_call (c : call) (s : GraphData) : GraphData :=
  match c with
  | Typed o => exec o s
  | AddEdgeDyn f t d c p q => (add_edge_dyn f t d c p q s).2
  end.

Definition run_calls (cs : list call) (s : GraphData) : GraphData :=
  foldl (λ s c, exec_call c s) s cs.

(** The typed calls of the run satisfy [allowed]. *)
Definition call_allowed (allowed : op → bool) (c : call) : bool :=
  match c with
  | Typed o => allowed o
  | AddEdgeDyn _ _ _ _ _ _ => true
  end.

(** Both endpoints of the edge are equal, in Python's sense, to keys of the
    node map. *)
Definition endpoints_match (s : GraphData) (edge : record) : Prop :=
  ∃ f t kf kt,
    edge !! "from" = Some f ∧ edge !! "to" = Some t
    ∧ py_eq_int f kf = true ∧ py_eq_int t kt = true
    ∧ is_Some (get_node_by_id kf s) ∧ is_Some (get_node_by_id kt s).

(** A run that creates an edge from the float [1.0] to [True] (node 1 both
    times), updates and deletes. *)
Definition dyn_calls : list call :=
  (Typed <$> example_ops)
  ++ [AddEdgeDyn (VFloat 1) (VBool true) (VInt 7) (VInt 0) (VStr "") (VStr "");
      Typed (UpdateEdge 2 duration_and_weight);
      Typed (AddNode (VStr "C") (VInt 0) (VInt 0));
      Typed (DeleteNode 2)].

Definition dyn_store : GraphData := run_calls dyn_calls init.

(** The edge that is left in [dyn_store]. *)
Definition dyn_edge : record := default ∅ (get_edge_by_id 2 dyn_store).

(** ** Updates that are not dicts *)

(** [update_edge] when [updates] is not the annotated dict but a list of
    two-element lists [[key, value]] with text keys, which [dict.update]
    accepts as well: the pairs are written in order, and
    ['duration' in updates] is then membership in a list of lists, which no
    text is equal to, so ['weight'] is left alone. *)
Definition update_edge_pairs (edge_id : Z) (updates : list (string * value))
    (s : GraphData) : option record * GraphData :=
  match PyDict.get edge_id (edges_dict s) with
  | Some edge =>
      let edge1 := foldl (λ e kv, <[kv.1 := kv.2]> e) edge updates in
      (Some edge1,
       {| nodes_dict := nodes_dict s;
          edges_dict := PyDict.setitem edge_id edge1 (edges_dict s);
          node_counter := node_counter s;
          edge_counter := edge_counter s |})
  | None => (None, s)
  end.

(** ** The request handlers *)

(** A view function returns [jsonify(body), status], or an exception
    escapes it. *)
Inductive raised : Type :=
  | Exn (e : exn)
  | AttributeError
  | ValueError.

Inductive outcome : Type :=
  | Response (status : Z) (body : value)
  | Raised (e : raised).

(** Truth value of a decoded JSON body ([if not data]). *)
Definition py_truthy (v : value) : bool :=
  match v with
  | VNone => false
  | VBool b => b
  | VInt z => negb (z =? 0)
  | VFloat f => negb (is_zero f)
  | VStr t => match t with EmptyString => false | String _ _ => true end
  | VList l => match l with [] => false | _ :: _ => true end
  | VDict d => negb (Nat.eqb (size d) 0)
  end.

(** [float(v)]; [parse_float] stands for the conversion of text, which is
    taken as an argument ([None] when [float] raises [ValueError]). *)
Definition py_float (parse_float : string → option float) (v : value)
  : float + raised :=
  match v with
  | VFloat f => inl f
  | VInt z =>
      match float_of_int z with
      | Ok f => inl f
      | Raise e => inr (Exn e)
      end
  | VBool b => inl (if b then 1%float else 0%float)
  | VStr t =>
      match parse_float t with
      | Some f => inl f
      | None => inr ValueError
      end
  | VNone | VList _ | VDict _ => inr (Exn TypeError)
  end.

Definition error_body (message : string) : value :=
  VDict {[ "error" := VStr message ]}.

Definition success_body (message : string) : value :=
  VDict {[ "success" := VBool true; "message" := VStr message ]}.

(** [handle_nodes], method GET. *)
Definition handle_nodes_get (s : GraphData) : outcome :=
  Response 200 (VList (VDict <$> get_nodes_list s)).

(** [handle_nodes], method POST, on the body [data] that
    [request.get_json()] returned; [py_strip] stands for [str.strip], taken
    as an argument. *)
Definition handle_nodes_post (py_strip : string → string) (data : value)
    (s : GraphData) : outcome * GraphData :=
  if negb (py_truthy data) then
    (Response 400 (error_body "No se proporcionaron datos"), s)
  else
    match data with
    | VDict d =>
        match default (VStr "") (d !! "name") with
        | VStr raw =>
            let name := py_strip raw in
            if negb (py_truthy (VStr name)) then
              (Response 400 (error_body "El nombre del nodo es requerido"), s)
            else
              let new_node :=
                add_node (VStr name)
                  (default (VInt 100) (d !! "x"))
                  (default (VInt 100) (d !! "y")) s in
              (Response 201 (VDict new_node.1), new_node.2)
        | _ => (Raised AttributeError, s)
        end
    | _ => (Raised AttributeError, s)
    end.

(** [if node:] on what [dict.get] returned. *)
Definition found (r : option record) : bool :=
  match r with
  | Some r => py_truthy (VDict r)
  | None => false
  end.

(** [handle_node], method GET. *)
Definition handle_node_get (node_id : Z) (s : GraphData) : outcome :=
  let node := get_node_by_id node_id s in
  if found node then Response 200 (VDict (default ∅ node))
  else Response 404 (error_body "Nodo no encontrado").

(** [handle_node], method DELETE. *)
Definition handle_node_delete (node_id : Z) (s : GraphData)
  : outcome * GraphData :=
  match delete_node node_id s with
  | (Raise e, s') => (Raised (Exn e), s')
  | (Ok true, s') => (Response 200 (success_body "Nodo eliminado correctamente"), s')
  | (Ok false, s') => (Response 404 (error_body "Nodo no encontrado"), s')
  end.

(** [handle_edges], method GET. *)
Definition handle_edges_get (s : GraphData) : outcome :=
  Response 200 (VList (VDict <$> get_edges_list s)).

(** [handle_edges], method POST.  The arguments of [add_edge] are
    evaluated in the order they are written; the first [float(...)] that
    raises ends the request before the store is called. *)
Definition handle_edges_post (parse_float : string → option float)
    (data : value) (s : GraphData) : outcome * GraphData :=
  if negb (py_truthy data) then
    (Response 400 (error_body "No se proporcionaron datos"), s)
  else
    match data with
    | VDict d =>
        match d !! "from", d !! "to" with
        | None, _ | Some VNone, _ | _, None | _, Some VNone =>
            (Response 400 (error_body "Se requieren nodos origen y destino"), s)
        | Some from_node, Some to_node =>
            match py_float parse_float (default (VInt 0) (d !! "duration")) with
            | inr e => (Raised e, s)
            | inl duration =>
                match py_float parse_float (default (VInt 0) (d !! "cost")) with
                | inr e => (Raised e, s)
                | inl cost =>
                    match add_edge_dyn from_node to_node
                            (VFloat duration) (VFloat cost)
                            (default (VStr "") (d !! "prerequisites"))
                            (default (VStr "") (d !! "postrequisites")) s with
                    | (Raise e, s') => (Raised (Exn e), s')
                    | (Ok new_edge, s') =>
                        if found new_edge then
                          (Response 201 (VDict (default ∅ new_edge)), s')
                        else
                          (Response 400
                             (error_body
                                "No se pudo crear la arista. Verifica que los nodos existan"),
                           s')
                    end
                end
            end
        end
    | _ => (Raised AttributeError, s)
    end.

(** [handle_edge], method GET. *)
Definition handle_edge_get (edge_id : Z) (s : GraphData) : outcome :=
  let edge := get_edge_by_id edge_id s in
  if found edge then Response 200 (VDict (default ∅ edge))
  else Response 404 (error_body "Arista no encontrada").

(** [handle_edge], method DELETE. *)
Definition handle_edge_delete (edge_id : Z) (s : GraphData)
  : outcome * GraphData :=
  match delete_edge edge_id s with
  | (true, s') => (Response 200 (success_body "Arista eliminada correctamente"), s')
  | (false, s') => (Response 404 (error_body "Arista no encontrada"), s')
  end.

(** [clear_graph] *)
Definition clear_graph (s : GraphData) : outcome * GraphData :=
  (Response 200 (success_body "Grafo limpiado correctamente"), clear_all s).

(** The PUT branches of [handle_node] and [handle_edge] hand the decoded
    body to [dict.update] whatever it is; an array body makes [dict.update]
    read pairs whose keys need not be text, which a [record] cannot hold, so
    these two branches are not part of the model. *)

(** Created: the request was answered with status 201. *)
Definition created (out : outcome) : bool :=
  match out with
  | Response status _ => status =? 201
  | Raised _ => false
  end.

(** ** Instances of the text functions for the examples *)

(** The ASCII characters [str.strip] removes. *)
Definition is_ascii_space (a : Ascii.ascii) : bool :=
  let n := Ascii.nat_of_ascii a in
  ((9 <=? n) && (n <=? 13) || (28 <=? n) && (n <=? 32))%nat.

Fixpoint lstrip_ascii (t : string) : string :=
  match t with
  | String a t' => if is_ascii_space a then lstrip_ascii t' else t
  | EmptyString => EmptyString
  end.

(** [str.strip] on ASCII text. *)
Definition strip_ascii (t : string) : string :=
  String.rev (lstrip_ascii (String.rev (lstrip_ascii t))).

(** A conversion of text that reads nothing: every text is rejected. *)
Definition parse_nothing (t : string) : option float := None.

(** The body [{"name": "  Tarea 1 ", "x": 10}]. *)
Definition node_body : value :=
  VDict {[ "name" := VStr "  Tarea 1 "; "x" := VInt 10 ]}.

(** The body [{"from": 1.0, "to": 2, "duration": 3, "cost": true}]. *)
Definition edge_body : value :=
  VDict {[ "from" := VFloat 1; "to" := VInt 2;
           "duration" := VInt 3; "cost" := VBool true ]}.

(** The body [{"from": 1, "to": 999}]. *)
Definition edge_body_missing : value :=
  VDict {[ "from" := VInt 1; "to" := VInt 999 ]}.

(** * Facts about insertion-ordered dicts *)

Section pydict_facts.
Context {V : Type}.
Implicit Types (d : list (Z * V)) (k j : Z) (v : V).

Lemma pydict_get_setitem_eq k v d :
  PyDict.get k (PyDict.setitem k v d) = Some v.
Proof.
  induction d as [|[k' v'] d IH]; simpl.
  - by rewrite decide_True.
  - destruct (decide (k' = k)) as [->|Hne]; simpl.
    + by rewrite decide_True.
    + by rewrite decide_False.
Qed.

Lemma pydict_get_setitem_ne k j v d :
  k ≠ j → PyDict.get j (PyDict.setitem k v d) = PyDict.get j d.
Proof.
  intros Hkj. induction d as [|[k' v'] d IH]; simpl.
  - by rewrite decide_False.
  - destruct (decide (k' = k)) as [->|Hne]; simpl.
    + by rewrite !decide_False.
    + by rewrite IH.
Qed.

Lemma pydict_get_None k d : PyDict.get k d = None ↔ k ∉ PyDict.keys d.
Proof.
  unfold PyDict.keys. induction d as [|[k' v'] d IH]; simpl.
  - split; [intros _; apply not_elem_of_nil | done].
  - rewrite not_elem_of_cons. destruct (decide (k' = k)) as [->|Hne].
    + split; [done | by intros []].
    + rewrite IH. split; [intros ?; split; [congruence | done] | by intros [_ ?]].
Qed.

Lemma pydict_get_Some_elem k v d : PyDict.get k d = Some v → (k, v) ∈ d.
Proof.
  induction d as [|[k' v'] d IH]; simpl; [done|].
  destruct (decide (k' = k)) as [->|Hne].
  - intros [= ->]. apply elem_of_cons; by left.
  - intros H. apply elem_of_cons; right; auto.
Qed.

Lemma pydict_elem_get k v d :
  PyDict.wf d → (k, v) ∈ d → PyDict.get k d = Some v.
Proof.
  unfold PyDict.wf, PyDict.keys.
  induction d as [|[k' v'] d IH]; simpl; [by intros _ ?%elem_of_nil|].
  rewrite NoDup_cons. intros [Hk' Hd] [Heq|Hin]%elem_of_cons.
  - simplify_eq. by rewrite decide_True.
  - rewrite decide_False; [auto|].
    intros ->. apply Hk'. by apply (list_elem_of_fmap_2 fst _ (k, v)).
Qed.

Lemma pydict_contains_true k d :
  PyDict.contains k d = true ↔ is_Some (PyDict.get k d).
Proof.
  unfold PyDict.contains. destruct (PyDict.get k d); split; done.
Qed.

Lemma pydict_contains_false k d :
  PyDict.contains k d = false ↔ PyDict.get k d = None.
Proof. unfold PyDict.contains. by destruct (PyDict.get k d). Qed.

Lemma pydict_setitem_Some k v d :
  is_Some (PyDict.get k d) →
  PyDict.keys (PyDict.setitem k v d) = PyDict.keys d.
Proof.
  unfold PyDict.keys. induction d as [|[k' v'] d IH]; simpl.
  - by intros [? ?].
  - destruct (decide (k' = k)) as [->|Hne]; simpl; [done|].
    intros H. f_equal. by apply IH.
Qed.

Lemma pydict_setitem_None k v d :
  PyDict.get k d = None → PyDict.setitem k v d = d ++ [(k, v)].
Proof.
  induction d as [|[k' v'] d IH]; simpl; [done|].
  destruct (decide (k' = k)) as [->|Hne]; [done|].
  intros H. by rewrite IH.
Qed.

Lemma pydict_len_setitem_Some k v d :
  is_Some (PyDict.get k d) → PyDict.len (PyDict.setitem k v d) = PyDict.len d.
Proof.
  intros H. unfold PyDict.len.
  pose proof (f_equal length (pydict_setitem_Some k v d H)) as E.
  unfold PyDict.keys in E. rewrite !length_fmap in E. by rewrite E.
Qed.

Lemma pydict_keys_delitem k d :
  PyDict.keys (PyDict.delitem k d) = filter (λ j, j ≠ k) (PyDict.keys d).
Proof.
  unfold PyDict.keys, PyDict.delitem.
  induction d as [|[k' v'] d IH]; [done|].
  rewrite fmap_cons, !filter_cons. simpl.
  destruct (decide (k' ≠ k)); [rewrite fmap_cons; simpl; f_equal|]; apply IH.
Qed.

Lemma pydict_get_delitem_eq k d : PyDict.get k (PyDict.delitem k d) = None.
Proof.
  apply pydict_get_None. rewrite pydict_keys_delitem.
  rewrite list_elem_of_filter. by intros [? _].
Qed.

Lemma pydict_get_delitem_ne k j d :
  k ≠ j → PyDict.get j (PyDict.delitem k d) = PyDict.get j d.
Proof.
  intros Hkj. unfold PyDict.delitem.
  induction d as [|[k' v'] d IH]; [done|].
  rewrite filter_cons. simpl.
  destruct (decide (k' ≠ k)) as [Hne|Heq]; simpl.
  - by rewrite IH.
  - assert (k' = k) as -> by (by destruct (decide (k' = k))).
    by rewrite decide_False.
Qed.

Lemma pydict_delitem_absent k d :
  PyDict.get k d = None → PyDict.delitem k d = d.
Proof.
  unfold PyDict.delitem. induction d as [|[k' v'] d IH]; [done|]. simpl.
  destruct (decide (k' = k)) as [->|Hne]; [done|].
  intros H. rewrite filter_cons_True by done. by rewrite IH.
Qed.

Lemma pydict_wf_setitem k v d : PyDict.wf d → PyDict.wf (PyDict.setitem k v d).
Proof.
  intros Hwf. unfold PyDict.wf.
  destruct (PyDict.get k d) as [v0|] eqn:Hget.
  - by rewrite pydict_setitem_Some.
  - rewrite pydict_setitem_None by done.
    unfold PyDict.keys. rewrite fmap_app. apply NoDup_app.
    split; [done|]. split; [|apply NoDup_singleton].
    intros x Hx ->%list_elem_of_singleton.
    by apply pydict_get_None in Hget.
Qed.

Lemma pydict_wf_delitem k d : PyDict.wf d → PyDict.wf (PyDict.delitem k d).
Proof.
  unfold PyDict.wf. rewrite pydict_keys_delitem. apply NoDup_filter.
Qed.

Lemma pydict_keys_setitem_Forall (P : Z → Prop) k v d :
  P k → Forall P (PyDict.keys d) → Forall P (PyDict.keys (PyDict.setitem k v d)).
Proof.
  intros Hk Hd. destruct (PyDict.get k d) as [v0|] eqn:Hget.
  - by rewrite pydict_setitem_Some.
  - rewrite pydict_setitem_None by done.
    unfold PyDict.keys. rewrite fmap_app. apply Forall_app. split; [done|].
    by apply Forall_singleton.
Qed.

Lemma pydict_values_setitem_Forall (P : V → Prop) k v d :
  P v → Forall P (PyDict.values d) →
  Forall P (PyDict.values (PyDict.setitem k v d)).
Proof.
  unfold PyDict.values. intros Hv. induction d as [|[k' v'] d IH]; simpl.
  - intros _. by apply Forall_singleton.
  - rewrite Forall_cons. intros [Hv' Hd].
    destruct (decide (k' = k)); simpl; apply Forall_cons; auto.
Qed.

Lemma pydict_delitem_sublist k d : PyDict.delitem k d `sublist_of` d.
Proof. apply sublist_filter. Qed.
End pydict_facts.

(** Deleting keeps the remaining items, in their order. *)
Section pydict_sublist.
Context {V : Type}.
Implicit Types (d : list (Z * V)).

Lemma pydict_sublist_wf d d' : d' `sublist_of` d → PyDict.wf d → PyDict.wf d'.
Proof.
  unfold PyDict.wf, PyDict.keys. intros Hsub Hd.
  eapply sublist_NoDup; [done|]. by apply fmap_sublist.
Qed.

Lemma sublist_Forall {A} (P : A → Prop) (l l' : list A) :
  l' `sublist_of` l → Forall P l → Forall P l'.
Proof.
  rewrite !Forall_forall. intros Hsub Hl x Hx.
  apply Hl. by eapply elem_of_sublist.
Qed.

Lemma pydict_sublist_keys (P : Z → Prop) d d' :
  d' `sublist_of` d → Forall P (PyDict.keys d) → Forall P (PyDict.keys d').
Proof.
  unfold PyDict.keys. intros Hsub. apply sublist_Forall. by apply fmap_sublist.
Qed.

Lemma pydict_sublist_values (P : V → Prop) d d' :
  d' `sublist_of` d → Forall P (PyDict.values d) → Forall P (PyDict.values d').
Proof.
  unfold PyDict.values. intros Hsub. apply sublist_Forall. by apply fmap_sublist.
Qed.

Lemma pydict_foldl_delitem (ids : list Z) d :
  foldl (λ d k, PyDict.delitem k d) d ids = filter (λ kv, kv.1 ∉ ids) d.
Proof.
  revert d. induction ids as [|k ids IH]; intros d; simpl.
  - induction d as [|kv d IHd]; [done|].
    rewrite filter_cons_True by apply not_elem_of_nil. by rewrite <-IHd.
  - rewrite IH. unfold PyDict.delitem. rewrite list_filter_filter.
    apply list_filter_iff. intros [j v]; simpl.
    rewrite not_elem_of_cons. tauto.
Qed.

Lemma pydict_get_filter_Some (P : Z * V → Prop) `{!∀ kv, Decision (P kv)} k v d :
  PyDict.wf d → PyDict.get k d = Some v → P (k, v) →
  PyDict.get k (filter P d) = Some v.
Proof.
  intros Hwf Hget HP. apply pydict_elem_get.
  - eapply pydict_sublist_wf; [apply sublist_filter; apply _ | done].
  - apply list_elem_of_filter. split; [done|]. by apply pydict_get_Some_elem.
Qed.

Lemma pydict_get_filter_inv (P : Z * V → Prop) `{!∀ kv, Decision (P kv)} k v d :
  PyDict.wf d → PyDict.get k (filter P d) = Some v →
  PyDict.get k d = Some v ∧ P (k, v).
Proof.
  intros Hwf Hget. apply pydict_get_Some_elem, list_elem_of_filter in Hget.
  destruct Hget as [HP Hin]. split; [|done]. by apply pydict_elem_get.
Qed.
End pydict_sublist.

(** * The store invariant *)

Lemma incident_touches node_id edge :
  has_endpoints edge → incident node_id edge = Ok (touches node_id edge).
Proof.
  intros [[f Hf] [t Ht]]. unfold incident, touches. rewrite Hf, Ht.
  by destruct (py_eq_int f node_id).
Qed.

Lemma edges_to_remove_ok node_id (d : list (Z * record)) :
  Forall has_endpoints (PyDict.values d) →
  edges_to_remove node_id d
  = Ok (PyDict.keys (filter (λ kv, touches node_id kv.2 = true) d)).
Proof.
  unfold PyDict.values, PyDict.keys.
  induction d as [|[k e] d IH]; [done|].
  rewrite fmap_cons, Forall_cons. simpl. intros [He Hd].
  rewrite (incident_touches _ _ He), (IH Hd), filter_cons. simpl.
  by destruct (touches node_id e).
Qed.

Lemma has_endpoints_update (updates edge : record) :
  has_endpoints edge → has_endpoints (updates ∪ edge).
Proof.
  intros [Hf Ht]. split; apply lookup_union_is_Some; by right.
Qed.

Lemma has_endpoints_insert_weight d (edge : record) :
  has_endpoints edge → has_endpoints (<["weight" := d]> edge).
Proof.
  intros [Hf Ht]. split; by rewrite lookup_insert_ne.
Qed.

Lemma store_ok_init : store_ok init.
Proof. split; simpl; try constructor; lia. Qed.

Lemma store_ok_clear_all s : store_ok (clear_all s).
Proof. apply store_ok_init. Qed.

Lemma store_ok_add_node name x y s : store_ok s → store_ok (add_node name x y s).2.
Proof.
  intros [Hn He Hnl Hel Hep Hnc Hec]. split; simpl; try done; try lia.
  - by apply pydict_wf_setitem.
  - apply pydict_keys_setitem_Forall; [lia|].
    eapply Forall_impl; [done|]. simpl. lia.
Qed.

Lemma store_ok_update_node node_id updates s :
  store_ok s → store_ok (update_node node_id updates s).2.
Proof.
  intros Hok. unfold update_node.
  destruct (PyDict.get node_id (nodes_dict s)) as [node|] eqn:Hget; [|done].
  destruct Hok as [Hn He Hnl Hel Hep Hnc Hec]. split; simpl; try done.
  - by apply pydict_wf_setitem.
  - unfold PyDict.wf in *. by rewrite pydict_setitem_Some.
Qed.

Lemma store_ok_delete_node node_id s :
  store_ok s → store_ok (delete_node node_id s).2.
Proof.
  intros Hok. unfold delete_node.
  destruct (PyDict.contains node_id (nodes_dict s)); [|done].
  destruct Hok as [Hn He Hnl Hel Hep Hnc Hec].
  assert (PyDict.delitem node_id (nodes_dict s) `sublist_of` nodes_dict s)
    as Hsub by apply pydict_delitem_sublist.
  destruct (edges_to_remove node_id (edges_dict s)) as [ids|e]; split; simpl;
    try done; eauto using pydict_sublist_wf, pydict_sublist_keys.
  all: rewrite pydict_foldl_delitem.
  all: eauto using pydict_sublist_wf, pydict_sublist_keys,
         pydict_sublist_values, sublist_filter.
Qed.

Lemma store_ok_add_edge f t d c p q s :
  store_ok s → store_ok (add_edge f t d c p q s).2.
Proof.
  intros Hok. unfold add_edge.
  destruct (negb _ || negb _); [done|].
  destruct Hok as [Hn He Hnl Hel Hep Hnc Hec]. split; simpl; try done; try lia.
  - by apply pydict_wf_setitem.
  - apply pydict_keys_setitem_Forall; [lia|].
    eapply Forall_impl; [done|]. simpl. lia.
  - apply pydict_values_setitem_Forall; [|done].
    split; by eexists.
Qed.

Lemma store_ok_update_edge edge_id updates s :
  store_ok s → store_ok (update_edge edge_id updates s).2.
Proof.
  intros Hok. unfold update_edge.
  destruct (PyDict.get edge_id (edges_dict s)) as [edge|] eqn:Hget; [|done].
  destruct Hok as [Hn He Hnl Hel Hep Hnc Hec]. split; simpl; try done.
  - by apply pydict_wf_setitem.
  - unfold PyDict.wf in *. by rewrite pydict_setitem_Some.
  - apply pydict_values_setitem_Forall; [|done].
    assert (has_endpoints edge) as Hedge.
    { rewrite Forall_forall in Hep. apply Hep.
      apply (list_elem_of_fmap_2 snd _ (edge_id, edge)).
      by apply pydict_get_Some_elem. }
    destruct (updates !! "duration");
      auto using has_endpoints_update, has_endpoints_insert_weight.
Qed.

Lemma store_ok_delete_edge edge_id s :
  store_ok s → store_ok (delete_edge edge_id s).2.
Proof.
  intros Hok. unfold delete_edge.
  destruct (PyDict.contains edge_id (edges_dict s)); [|done].
  destruct Hok as [Hn He Hnl Hel Hep Hnc Hec]. split; simpl; try done.
  - by apply pydict_wf_delitem.
  - eapply pydict_sublist_keys; [apply pydict_delitem_sublist|done].
  - eapply pydict_sublist_values; [apply pydict_delitem_sublist|done].
Qed.

Lemma store_ok_exec o s : store_ok s → store_ok (exec o s).
Proof.
  intros Hok. destruct o; unfold exec.
  - by apply store_ok_add_node.
  - by apply store_ok_update_node.
  - by apply store_ok_delete_node.
  - by apply store_ok_add_edge.
  - by apply store_ok_update_edge.
  - by apply store_ok_delete_edge.
  - apply store_ok_clear_all.
Qed.

Lemma store_ok_execs ops s : store_ok s → store_ok (execs ops s).
Proof.
  unfold execs. revert s.
  induction ops as [|o ops IH]; intros s Hok; simpl; [done|].
  by apply IH, store_ok_exec.
Qed.

Lemma reachable_store_ok s : reachable s → store_ok s.
Proof. intros [ops ->]. apply store_ok_execs, store_ok_init. Qed.

Lemma reachable_init : reachable init.
Proof. by exists []. Qed.

Lemma reachable_exec o s : reachable s → reachable (exec o s).
Proof.
  intros [ops ->]. exists (ops ++ [o]). unfold execs. by rewrite foldl_app.
Qed.

(** * Cascading deletion *)

Lemma filter_ext_elem {A} (P Q : A → Prop)
    `{!∀ x, Decision (P x), !∀ x, Decision (Q x)} (l : list A) :
  (∀ x, x ∈ l → P x ↔ Q x) → filter P l = filter Q l.
Proof.
  induction l as [|x l IH]; intros Hext; [done|].
  rewrite !filter_cons.
  assert (filter P l = filter Q l) as ->.
  { apply IH. intros y Hy. apply Hext, elem_of_cons. by right. }
  assert (P x ↔ Q x) as Hx by (apply Hext, elem_of_cons; by left).
  destruct (decide (P x)), (decide (Q x)); tauto.
Qed.

(** On a dict, removing the keys of the incident edges is removing the
    incident edges. *)
Lemma cascade_filter node_id (d : list (Z * record)) :
  PyDict.wf d →
  filter (λ kv, kv.1 ∉ PyDict.keys (filter (λ kv, touches node_id kv.2 = true) d)) d
  = filter (λ kv, touches node_id kv.2 = false) d.
Proof.
  intros Hwf. apply filter_ext_elem. intros [k e] Hin. simpl.
  unfold PyDict.keys. rewrite list_elem_of_fmap. split.
  - intros Hk. destruct (touches node_id e) eqn:Ht; [|done].
    destruct Hk. exists (k, e). split; [done|].
    apply list_elem_of_filter. by split.
  - intros Ht [[k' e'] [Hk [Ht' Hin']%list_elem_of_filter]]. simpl in *. subst k'.
    apply (pydict_elem_get _ _ _ Hwf) in Hin, Hin'. congruence.
Qed.

Lemma delete_node_present node_id s :
  store_ok s → PyDict.contains node_id (nodes_dict s) = true →
  delete_node node_id s
  = (Ok true,
     {| nodes_dict := PyDict.delitem node_id (nodes_dict s);
        edges_dict := filter (λ kv, touches node_id kv.2 = false) (edges_dict s);
        node_counter := node_counter s;
        edge_counter := edge_counter s |}).
Proof.
  intros Hok Hin. unfold delete_node. rewrite Hin.
  rewrite (edges_to_remove_ok _ _ (ok_endpoints _ Hok)).
  rewrite pydict_foldl_delitem, cascade_filter; [done|apply Hok].
Qed.

Lemma delete_node_absent node_id s :
  PyDict.contains node_id (nodes_dict s) = false →
  delete_node node_id s = (Ok false, s).
Proof. intros Hin. unfold delete_node. by rewrite Hin. Qed.

Lemma touches_false_avoids node_id edge :
  has_endpoints edge → touches node_id edge = false → avoids node_id edge.
Proof.
  intros [[f Hf] [t Ht]]. unfold touches, avoids. rewrite Hf, Ht.
  intros [? ?]%orb_false_iff. by exists f, t.
Qed.

(** C1. For every state the store can reach and every node id present in
    it, [delete_node] returns [True]; afterwards the node is gone and no
    edge of the store has a ['from'] or a ['to'] equal to the id; the edges
    that are not incident to the id are the same records under the same
    keys, in the same order, and nothing else is an edge. *)
Theorem delete_node_cascade (s : GraphData) (node_id : Z) :
  reachable s →
  is_Some (get_node_by_id node_id s) →
  ∃ s',
    delete_node node_id s = (Ok true, s')
    ∧ get_node_by_id node_id s' = None
    ∧ Forall (avoids node_id) (get_edges_list s')
    ∧ (∀ edge_id edge,
         get_edge_by_id edge_id s' = Some edge → avoids node_id edge)
    ∧ (∀ edge_id edge,
         get_edge_by_id edge_id s = Some edge →
         touches node_id edge = false →
         get_edge_by_id edge_id s' = Some edge)
    ∧ (∀ edge_id edge,
         get_edge_by_id edge_id s' = Some edge →
         get_edge_by_id edge_id s = Some edge)
    ∧ edges_dict s' `sublist_of` edges_dict s.
Proof.
  intros Hok%reachable_store_ok Hin%pydict_contains_true.
  eexists. split; [by apply delete_node_present|].
  unfold get_node_by_id, get_edge_by_id, get_edges_list. simpl.
  assert (∀ edge_id edge,
    PyDict.get edge_id
      (filter (λ kv, touches node_id kv.2 = false) (edges_dict s)) = Some edge →
    PyDict.get edge_id (edges_dict s) = Some edge ∧ avoids node_id edge) as Hinv.
  { intros edge_id edge [Hget Ht]%pydict_get_filter_inv; [|apply Hok].
    split; [done|]. apply touches_false_avoids; [|done].
    pose proof (ok_endpoints _ Hok) as Hep. rewrite Forall_forall in Hep.
    apply Hep, (list_elem_of_fmap_2 snd _ (edge_id, edge)).
    by apply pydict_get_Some_elem. }
  split; [apply pydict_get_delitem_eq|].
  split.
  { apply Forall_forall. intros edge [[k e] [-> Hke]]%list_elem_of_fmap.
    apply (Hinv k). apply pydict_elem_get; [|done].
    eapply pydict_sublist_wf; [apply sublist_filter; apply _|apply Hok]. }
  split; [intros ???; by eapply Hinv|].
  split.
  { intros edge_id edge Hget Ht.
    by apply (pydict_get_filter_Some _ _ _ _ (ok_edges_wf _ Hok) Hget). }
  split; [intros ???; by eapply Hinv|].
  apply sublist_filter; apply _.
Qed.

Lemma delete_node_cascade_witness :
  reachable example_store
  ∧ is_Some (get_node_by_id 1 example_store)
  ∧ ∃ s', delete_node 1 example_store = (Ok true, s')
          ∧ get_node_by_id 1 s' = None
          ∧ Forall (avoids 1) (get_edges_list s').
Proof.
  assert (reachable example_store) as Hr by (by exists example_ops).
  assert (is_Some (get_node_by_id 1 example_store)) as Hin by (by eexists).
  split; [done|]. split; [done|].
  destruct (delete_node_cascade example_store 1 Hr Hin)
    as (s' & Hdel & Hgone & Hall & _).
  by exists s'.
Defined.

(** * Adding an edge *)

(** C2. When [from_node] or [to_node] is not a key of the node map,
    [add_edge] returns [None] and the store is the one before the call:
    node map, edge map, node counter and edge counter. *)
Theorem add_edge_missing_endpoint (s : GraphData) (from_node to_node : Z)
    (duration cost prerequisites postrequisites : value) :
  from_node ∉ PyDict.keys (nodes_dict s) ∨ to_node ∉ PyDict.keys (nodes_dict s) →
  add_edge from_node to_node duration cost prerequisites postrequisites s
  = (None, s).
Proof.
  intros H. unfold add_edge.
  assert (PyDict.contains from_node (nodes_dict s) = false
          ∨ PyDict.contains to_node (nodes_dict s) = false) as [-> | ->].
  { destruct H as [H|H]; [left|right];
      by apply pydict_contains_false, pydict_get_None. }
  - done.
  - by rewrite orb_true_r.
Qed.

Lemma add_edge_missing_endpoint_witness :
  (1 ∉ PyDict.keys (nodes_dict example_store)
   ∨ 999 ∉ PyDict.keys (nodes_dict example_store))
  ∧ add_edge 1 999 (VInt 0) (VInt 0) (VStr "") (VStr "") example_store
    = (None, example_store)
  ∧ edge_counter
      (add_edge 1 999 (VInt 0) (VInt 0) (VStr "") (VStr "") example_store).2
    = 2.
Proof.
  assert (1 ∉ PyDict.keys (nodes_dict example_store)
          ∨ 999 ∉ PyDict.keys (nodes_dict example_store)) as H.
  { right. by apply pydict_get_None. }
  split; [done|].
  rewrite (add_edge_missing_endpoint example_store 1 999 _ _ _ _ H).
  by split.
Defined.

Lemma add_edge_present s from_node to_node duration cost prerequisites postrequisites :
  is_Some (PyDict.get from_node (nodes_dict s)) →
  is_Some (PyDict.get to_node (nodes_dict s)) →
  add_edge from_node to_node duration cost prerequisites postrequisites s
  = (Some (list_to_map
             [("id", VInt (edge_counter s));
              ("from", VInt from_node); ("to", VInt to_node);
              ("duration", duration); ("cost", cost);
              ("prerequisites", prerequisites);
              ("postrequisites", postrequisites);
              ("weight", duration); ("metadata", VDict ∅)]),
     (add_edge from_node to_node duration cost prerequisites postrequisites s).2).
Proof.
  intros Hf%pydict_contains_true Ht%pydict_contains_true.
  unfold add_edge. by rewrite Hf, Ht.
Qed.

Lemma add_edge_Some s f t d c p q edge s' :
  add_edge f t d c p q s = (Some edge, s') →
  edge = list_to_map
           [("id", VInt (edge_counter s)); ("from", VInt f); ("to", VInt t);
            ("duration", d); ("cost", c); ("prerequisites", p);
            ("postrequisites", q); ("weight", d); ("metadata", VDict ∅)]
  ∧ s' = {| nodes_dict := nodes_dict s;
            edges_dict := PyDict.setitem (edge_counter s) edge (edges_dict s);
            node_counter := node_counter s;
            edge_counter := edge_counter s + 1 |}.
Proof.
  unfold add_edge. destruct (negb _ || negb _); [done|].
  intros [= <- <-]. done.
Qed.

(** * Weight follows duration *)

(** C3. An edge returned by [add_edge] has ['weight'] equal to the
    [duration] argument; [update_edge] on a stored edge with an update that
    has a ['duration'] returns (and stores) an edge whose ['weight'] and
    ['duration'] are that new duration, whatever else the update holds, a
    ['weight'] of its own included. *)
Theorem weight_follows_duration :
  (∀ s from_node to_node duration cost prerequisites postrequisites edge s',
     add_edge from_node to_node duration cost prerequisites postrequisites s
     = (Some edge, s') →
     edge !! "weight" = Some duration
     ∧ edge !! "duration" = Some duration
     ∧ get_edge_by_id (edge_counter s) s' = Some edge)
  ∧ (∀ s edge_id updates d,
       is_Some (get_edge_by_id edge_id s) →
       updates !! "duration" = Some d →
       ∃ edge' s',
         update_edge edge_id updates s = (Some edge', s')
         ∧ edge' !! "weight" = Some d
         ∧ edge' !! "duration" = Some d
         ∧ get_edge_by_id edge_id s' = Some edge').
Proof.
  split.
  - intros s f t d c p q edge s' [-> ->]%add_edge_Some.
    split; [done|]. split; [done|].
    unfold get_edge_by_id. simpl. apply pydict_get_setitem_eq.
  - intros s edge_id updates d [edge Hget] Hd.
    unfold get_edge_by_id in *. unfold update_edge. rewrite Hget, Hd.
    eexists _, _. split; [done|]. simpl.
    split; [apply lookup_insert_eq|].
    split; [|apply pydict_get_setitem_eq].
    rewrite lookup_insert_ne by done. by apply lookup_union_Some_l.
Qed.

Lemma weight_follows_duration_witness :
  (∃ edge s',
     add_edge 1 2 (VFloat 3) (VFloat 10) (VStr "") (VStr "")
       (execs (take 2 example_ops) init) = (Some edge, s')
     ∧ edge !! "weight" = Some (VFloat 3))
  ∧ is_Some (get_edge_by_id 1 example_store)
  ∧ duration_and_weight !! "duration" = Some (VFloat 5)
  ∧ duration_and_weight !! "weight" = Some (VFloat 99)
  ∧ ∃ edge' s',
      update_edge 1 duration_and_weight example_store = (Some edge', s')
      ∧ edge' !! "weight" = Some (VFloat 5)
      ∧ get_edge_by_id 1 s' = Some edge'.
Proof.
  destruct weight_follows_duration as [Hadd Hupd].
  split.
  { destruct (add_edge 1 2 (VFloat 3) (VFloat 10) (VStr "") (VStr "")
                (execs (take 2 example_ops) init)) as [[edge|] s'] eqn:E;
      [|by vm_compute in E].
    exists edge, s'. split; [done|].
    by destruct (Hadd _ _ _ _ _ _ _ _ _ E). }
  assert (is_Some (get_edge_by_id 1 example_store)) as Hin by (by eexists).
  assert (duration_and_weight !! "duration" = Some (VFloat 5)) as Hd by done.
  split; [done|]. split; [done|]. split; [done|].
  destruct (Hupd example_store 1 duration_and_weight _ Hin Hd)
    as (edge' & s' & Hrun & Hw & _ & Hget).
  by exists edge', s'.
Defined.

(** * Clearing *)

(** C6. After [clear_all] both maps are empty and both counters are 1, so
    the next [add_node] returns a node with id 1. *)
Theorem clear_all_resets (s : GraphData) :
  nodes_dict (clear_all s) = []
  ∧ edges_dict (clear_all s) = []
  ∧ node_counter (clear_all s) = 1
  ∧ edge_counter (clear_all s) = 1
  ∧ clear_all s = init
  ∧ ∀ name x y,
      (add_node name x y (clear_all s)).1 !! "id" = Some (VInt 1)
      ∧ get_node_by_id 1 (add_node name x y (clear_all s)).2
        = Some (add_node name x y (clear_all s)).1.
Proof. repeat split; reflexivity. Qed.

(** * Partial updates *)

Lemma update_node_present node_id updates s node :
  get_node_by_id node_id s = Some node →
  update_node node_id updates s
  = (Some (updates ∪ node),
     {| nodes_dict := PyDict.setitem node_id (updates ∪ node) (nodes_dict s);
        edges_dict := edges_dict s;
        node_counter := node_counter s;
        edge_counter := edge_counter s |}).
Proof. unfold get_node_by_id, update_node. by intros ->. Qed.

Lemma update_node_absent node_id updates s :
  get_node_by_id node_id s = None → update_node node_id updates s = (None, s).
Proof. unfold get_node_by_id, update_node. by intros ->. Qed.

Lemma update_edge_absent edge_id updates s :
  get_edge_by_id edge_id s = None → update_edge edge_id updates s = (None, s).
Proof. unfold get_edge_by_id, update_edge. by intros ->. Qed.

(** The record [update_edge] stores: the merge, with ['weight'] overwritten
    when the update has a ['duration']. *)
Lemma update_edge_present edge_id updates s edge :
  get_edge_by_id edge_id s = Some edge →
  ∃ edge',
    update_edge edge_id updates s
    = (Some edge',
       {| nodes_dict := nodes_dict s;
          edges_dict := PyDict.setitem edge_id edge' (edges_dict s);
          node_counter := node_counter s;
          edge_counter := edge_counter s |})
    ∧ (∀ d, updates !! "duration" = Some d → edge' !! "weight" = Some d)
    ∧ (∀ k, k ≠ "weight" ∨ updates !! "duration" = None →
            edge' !! k = (updates ∪ edge) !! k).
Proof.
  unfold get_edge_by_id, update_edge. intros ->.
  eexists. split; [done|].
  destruct (updates !! "duration") as [d|] eqn:Hd.
  - split; [intros ? [= <-]; apply lookup_insert_eq|].
    intros k [Hk|?]; [|done]. by rewrite lookup_insert_ne.
  - split; [done|]. done.
Qed.

Lemma lookup_merge_Some (updates old : record) k v :
  updates !! k = Some v → (updates ∪ old) !! k = Some v.
Proof. apply lookup_union_Some_l. Qed.

Lemma lookup_merge_None (updates old : record) k :
  updates !! k = None → (updates ∪ old) !! k = old !! k.
Proof. apply lookup_union_r. Qed.

(** C7. [update_node] on an id that is not in the store returns [None] and
    leaves the store as it is.  On an id that is in the store it returns the
    stored record after the merge: every field of the update holds the
    update's value (a field outside the schema too), every other field holds
    what it held; the record stays under its key, at its place; the other
    nodes, the edges and both counters are unchanged.  [update_edge] does the
    same for edges, except that ['weight'] is set to the new duration when the
    update has a ['duration']. *)
Theorem update_merges_fields :
  (∀ s node_id updates,
     get_node_by_id node_id s = None →
     update_node node_id updates s = (None, s))
  ∧ (∀ s node_id updates node,
       get_node_by_id node_id s = Some node →
       ∃ node' s',
         update_node node_id updates s = (Some node', s')
         ∧ (∀ k v, updates !! k = Some v → node' !! k = Some v)
         ∧ (∀ k, updates !! k = None → node' !! k = node !! k)
         ∧ get_node_by_id node_id s' = Some node'
         ∧ (∀ j, j ≠ node_id → get_node_by_id j s' = get_node_by_id j s)
         ∧ PyDict.keys (nodes_dict s') = PyDict.keys (nodes_dict s)
         ∧ edges_dict s' = edges_dict s
         ∧ node_counter s' = node_counter s
         ∧ edge_counter s' = edge_counter s)
  ∧ (∀ s edge_id updates,
       get_edge_by_id edge_id s = None →
       update_edge edge_id updates s = (None, s))
  ∧ (∀ s edge_id updates edge,
       get_edge_by_id edge_id s = Some edge →
       ∃ edge' s',
         update_edge edge_id updates s = (Some edge', s')
         ∧ (∀ d, updates !! "duration" = Some d → edge' !! "weight" = Some d)
         ∧ (∀ k v, k ≠ "weight" ∨ updates !! "duration" = None →
                   updates !! k = Some v → edge' !! k = Some v)
         ∧ (∀ k, k ≠ "weight" ∨ updates !! "duration" = None →
                 updates !! k = None → edge' !! k = edge !! k)
         ∧ get_edge_by_id edge_id s' = Some edge'
         ∧ (∀ j, j ≠ edge_id → get_edge_by_id j s' = get_edge_by_id j s)
         ∧ PyDict.keys (edges_dict s') = PyDict.keys (edges_dict s)
         ∧ nodes_dict s' = nodes_dict s
         ∧ node_counter s' = node_counter s
         ∧ edge_counter s' = edge_counter s).
Proof.
  split; [intros; by apply update_node_absent|].
  split.
  { intros s node_id updates node Hget.
    eexists _, _. split; [by apply update_node_present|].
    unfold get_node_by_id in *. simpl.
    split; [intros k v; apply lookup_merge_Some|].
    split; [intros k; apply lookup_merge_None|].
    split; [apply pydict_get_setitem_eq|].
    split; [intros j Hj; by apply pydict_get_setitem_ne|].
    split; [|done]. apply pydict_setitem_Some. by eexists. }
  split; [intros; by apply update_edge_absent|].
  intros s edge_id updates edge Hget.
  destruct (update_edge_present edge_id updates s edge Hget)
    as (edge' & -> & Hw & Hother).
  exists edge'. eexists. split; [done|].
  unfold get_edge_by_id in *. simpl.
  split; [done|].
  split; [intros k v Hk Hu; rewrite Hother by done; by apply lookup_merge_Some|].
  split; [intros k Hk Hu; rewrite Hother by done; by apply lookup_merge_None|].
  split; [apply pydict_get_setitem_eq|].
  split; [intros j Hj; by apply pydict_get_setitem_ne|].
  split; [|done]. apply pydict_setitem_Some. by eexists.
Qed.

Lemma update_merges_fields_witness :
  get_node_by_id 5 example_store = None
  ∧ update_node 5 id_and_colour example_store = (None, example_store)
  ∧ is_Some (get_node_by_id 2 example_store)
  ∧ (∃ node' s',
       update_node 2 id_and_colour example_store = (Some node', s')
       ∧ node' !! "colour" = Some (VStr "red")
       ∧ node' !! "name" = Some (VStr "B")
       ∧ get_node_by_id 1 s' = get_node_by_id 1 example_store
       ∧ edges_dict s' = edges_dict example_store)
  ∧ get_edge_by_id 5 example_store = None
  ∧ update_edge 5 id_and_colour example_store = (None, example_store)
  ∧ is_Some (get_edge_by_id 1 example_store)
  ∧ (∃ edge' s',
       update_edge 1 id_and_colour example_store = (Some edge', s')
       ∧ edge' !! "colour" = Some (VStr "red")
       ∧ edge' !! "weight" = Some (VInt 3)
       ∧ nodes_dict s' = nodes_dict example_store).
Proof.
  destruct update_merges_fields as (Hn0 & Hn1 & He0 & He1).
  assert (get_node_by_id 5 example_store = None) as HnNone by done.
  assert (get_edge_by_id 5 example_store = None) as HeNone by done.
  destruct (get_node_by_id 2 example_store) as [node|] eqn:Hnode;
    [|by vm_compute in Hnode].
  destruct (get_edge_by_id 1 example_store) as [edge|] eqn:Hedge;
    [|by vm_compute in Hedge].
  split; [done|]. split; [by apply Hn0|]. split; [by eexists|].
  split.
  { destruct (Hn1 example_store 2 id_and_colour node Hnode)
      as (node' & s' & Hrun & Hnew & Hold & _ & Hoth & _ & Hedges & _).
    exists node', s'. split; [done|].
    split; [by apply Hnew|].
    split; [rewrite Hold by done; by vm_compute in Hnode; simplify_eq|].
    split; [by apply Hoth|done]. }
  split; [done|]. split; [by apply He0|]. split; [by eexists|].
  destruct (He1 example_store 1 id_and_colour edge Hedge)
    as (edge' & s' & Hrun & _ & Hnew & Hold & _ & _ & _ & Hnodes & _).
  exists edge', s'. split; [done|].
  split; [apply Hnew; [by right|done]|].
  split; [rewrite Hold by (by try right); by vm_compute in Hedge; simplify_eq|].
  done.
Defined.

(** * Deleting *)

Lemma delete_edge_present edge_id s :
  PyDict.contains edge_id (edges_dict s) = true →
  delete_edge edge_id s
  = (true,
     {| nodes_dict := nodes_dict s;
        edges_dict := PyDict.delitem edge_id (edges_dict s);
        node_counter := node_counter s;
        edge_counter := edge_counter s |}).
Proof. intros Hin. unfold delete_edge. by rewrite Hin. Qed.

Lemma delete_edge_absent edge_id s :
  PyDict.contains edge_id (edges_dict s) = false →
  delete_edge edge_id s = (false, s).
Proof. intros Hin. unfold delete_edge. by rewrite Hin. Qed.

(** C8. In every state the store can reach, [delete_node] returns [True]
    when the id is a key of the node map and [False] when it is not, and in
    the second case the store is unchanged.  [delete_edge] does the same for
    the edge map, in any state; when it returns [True] the edge is gone and
    the nodes, the other edges (records, keys and order) and both counters
    are unchanged. *)
Theorem delete_returns_existed :
  (∀ s node_id,
     reachable s →
     (is_Some (get_node_by_id node_id s) →
      ∃ s', delete_node node_id s = (Ok true, s')
            ∧ get_node_by_id node_id s' = None)
     ∧ (get_node_by_id node_id s = None →
        delete_node node_id s = (Ok false, s)))
  ∧ (∀ s edge_id,
       (get_edge_by_id edge_id s = None →
        delete_edge edge_id s = (false, s))
       ∧ (is_Some (get_edge_by_id edge_id s) →
          ∃ s', delete_edge edge_id s = (true, s')
                ∧ get_edge_by_id edge_id s' = None
                ∧ (∀ j, j ≠ edge_id → get_edge_by_id j s' = get_edge_by_id j s)
                ∧ edges_dict s' = filter (λ kv, kv.1 ≠ edge_id) (edges_dict s)
                ∧ nodes_dict s' = nodes_dict s
                ∧ node_counter s' = node_counter s
                ∧ edge_counter s' = edge_counter s)).
Proof.
  split.
  - intros s node_id Hok%reachable_store_ok. split.
    + intros Hin%pydict_contains_true.
      eexists. split; [by apply delete_node_present|].
      apply pydict_get_delitem_eq.
    + intros Hout%pydict_contains_false. by apply delete_node_absent.
  - intros s edge_id. split.
    + intros Hout%pydict_contains_false. by apply delete_edge_absent.
    + intros Hin%pydict_contains_true.
      eexists. split; [by apply delete_edge_present|].
      unfold get_edge_by_id. simpl.
      split; [apply pydict_get_delitem_eq|].
      split; [|done]. intros j Hj. by apply pydict_get_delitem_ne.
Qed.

Lemma delete_returns_existed_witness :
  reachable example_store
  ∧ is_Some (get_node_by_id 2 example_store)
  ∧ (∃ s', delete_node 2 example_store = (Ok true, s'))
  ∧ get_node_by_id 3 example_store = None
  ∧ delete_node 3 example_store = (Ok false, example_store)
  ∧ get_edge_by_id 2 example_store = None
  ∧ delete_edge 2 example_store = (false, example_store)
  ∧ is_Some (get_edge_by_id 1 example_store)
  ∧ (∃ s', delete_edge 1 example_store = (true, s')
           ∧ nodes_dict s' = nodes_dict example_store
           ∧ edge_counter s' = 2).
Proof.
  destruct delete_returns_existed as [Hnode Hedge].
  assert (reachable example_store) as Hr by (by exists example_ops).
  assert (is_Some (get_node_by_id 2 example_store)) as Hn2 by (by eexists).
  assert (get_node_by_id 3 example_store = None) as Hn3 by done.
  assert (get_edge_by_id 2 example_store = None) as He2 by done.
  assert (is_Some (get_edge_by_id 1 example_store)) as He1 by (by eexists).
  split; [done|]. split; [done|].
  split.
  { destruct (Hnode example_store 2 Hr) as [Hyes _].
    destruct (Hyes Hn2) as (s' & Hrun & _). by exists s'. }
  split; [done|].
  split; [by apply (Hnode example_store 3 Hr)|].
  split; [done|].
  split; [by apply (Hedge example_store 2)|].
  split; [done|].
  destruct (Hedge example_store 1) as [_ Hyes].
  destruct (Hyes He1) as (s' & Hrun & _ & _ & _ & Hnodes & _ & Hec).
  exists s'. by rewrite Hec.
Defined.

(** * Keys and ['id'] fields *)

Lemma pydict_keys_setitem_elem {V} (k j : Z) (v : V) (d : list (Z * V)) :
  j ∈ PyDict.keys (PyDict.setitem k v d) → j = k ∨ j ∈ PyDict.keys d.
Proof.
  destruct (PyDict.get k d) as [v0|] eqn:Hget.
  - rewrite pydict_setitem_Some by done. by right.
  - rewrite pydict_setitem_None by done. unfold PyDict.keys.
    rewrite fmap_app, elem_of_app. simpl.
    intros [?|?%list_elem_of_singleton]; [by right|by left].
Qed.

Lemma sublist_keys_elem {V} (j : Z) (d d' : list (Z * V)) :
  d' `sublist_of` d → j ∈ PyDict.keys d' → j ∈ PyDict.keys d.
Proof.
  intros Hsub Hj. eapply elem_of_sublist; [done|].
  unfold PyDict.keys. by apply fmap_sublist.
Qed.

(** A key of the node map after a call was a key before it, or is the id
    [add_node] has just assigned. *)
Lemma node_keys_exec o s j :
  j ∈ PyDict.keys (nodes_dict (exec o s)) →
  j ∈ PyDict.keys (nodes_dict s) ∨ (is_add_node o = true ∧ j = node_counter s).
Proof.
  destruct o as [name x y|node_id updates|node_id|f t d c p q|edge_id updates|edge_id|];
    simpl.
  - intros [->|?]%pydict_keys_setitem_elem; [by right|by left].
  - unfold update_node. destruct (PyDict.get _ _) eqn:Hget; simpl; [|by left].
    rewrite pydict_setitem_Some by done. by left.
  - unfold delete_node. destruct (PyDict.contains _ _); [|by left].
    destruct (edges_to_remove _ _); simpl; intros Hj; left;
      eapply sublist_keys_elem; eauto using pydict_delitem_sublist.
  - unfold add_edge. destruct (negb _ || negb _); by left.
  - unfold update_edge. destruct (PyDict.get _ _); by left.
  - unfold delete_edge. destruct (PyDict.contains _ _); by left.
  - by intros ?%elem_of_nil.
Qed.

Lemma edge_keys_exec o s j :
  j ∈ PyDict.keys (edges_dict (exec o s)) →
  j ∈ PyDict.keys (edges_dict s) ∨ (is_add_edge_ok o s = true ∧ j = edge_counter s).
Proof.
  destruct o as [name x y|node_id updates|node_id|f t d c p q|edge_id updates|edge_id|];
    simpl.
  - by left.
  - unfold update_node. destruct (PyDict.get _ _); by left.
  - unfold delete_node. destruct (PyDict.contains _ _); [|by left].
    destruct (edges_to_remove _ _); simpl; [|by left].
    rewrite pydict_foldl_delitem. intros Hj. left.
    refine (sublist_keys_elem _ _ _ _ Hj). apply sublist_filter.
  - unfold add_edge.
    destruct (PyDict.contains f _), (PyDict.contains t _); simpl; try by left.
    intros [->|?]%pydict_keys_setitem_elem; [by right|by left].
  - unfold update_edge. destruct (PyDict.get _ _) eqn:Hget; simpl; [|by left].
    rewrite pydict_setitem_Some by done. by left.
  - unfold delete_edge. destruct (PyDict.contains _ _); simpl; [|by left].
    intros Hj. left. eapply sublist_keys_elem; eauto using pydict_delitem_sublist.
  - by intros ?%elem_of_nil.
Qed.

(** C10. [update_node] with an update that maps ['id'] to [j] returns the
    record with ['id'] equal to [j], and that record is the one stored under
    the old key: the keys of the node map are the same list, so an id that
    had no record has none afterwards.  The same holds for [update_edge].
    No call re-keys: a key of either map after a call was a key before it, or
    is the counter value that [add_node] (resp. a successful [add_edge]) has
    just used. *)
Theorem id_field_rewrite_keeps_key :
  (∀ s k updates j node,
     get_node_by_id k s = Some node →
     updates !! "id" = Some j →
     ∃ node' s',
       update_node k updates s = (Some node', s')
       ∧ node' !! "id" = Some j
       ∧ get_node_by_id k s' = Some node'
       ∧ PyDict.keys (nodes_dict s') = PyDict.keys (nodes_dict s)
       ∧ (∀ z, get_node_by_id z s = None → get_node_by_id z s' = None))
  ∧ (∀ s k updates j edge,
       get_edge_by_id k s = Some edge →
       updates !! "id" = Some j →
       ∃ edge' s',
         update_edge k updates s = (Some edge', s')
         ∧ edge' !! "id" = Some j
         ∧ get_edge_by_id k s' = Some edge'
         ∧ PyDict.keys (edges_dict s') = PyDict.keys (edges_dict s)
         ∧ (∀ z, get_edge_by_id z s = None → get_edge_by_id z s' = None))
  ∧ (∀ o s z,
       z ∈ PyDict.keys (nodes_dict (exec o s)) →
       z ∈ PyDict.keys (nodes_dict s)
       ∨ (is_add_node o = true ∧ z = node_counter s))
  ∧ (∀ o s z,
       z ∈ PyDict.keys (edges_dict (exec o s)) →
       z ∈ PyDict.keys (edges_dict s)
       ∨ (is_add_edge_ok o s = true ∧ z = edge_counter s)).
Proof.
  split.
  { intros s k updates j node Hget Hj.
    eexists _, _. split; [by apply update_node_present|].
    unfold get_node_by_id in *. simpl.
    assert (PyDict.keys (PyDict.setitem k (updates ∪ node) (nodes_dict s))
            = PyDict.keys (nodes_dict s)) as Hkeys.
    { apply pydict_setitem_Some. by eexists. }
    split; [by apply lookup_merge_Some|].
    split; [apply pydict_get_setitem_eq|].
    split; [done|].
    intros z. rewrite !pydict_get_None. by rewrite Hkeys. }
  split.
  { intros s k updates j edge Hget Hj.
    destruct (update_edge_present k updates s edge Hget)
      as (edge' & -> & _ & Hother).
    exists edge'. eexists. split; [done|].
    unfold get_edge_by_id in *. simpl.
    assert (PyDict.keys (PyDict.setitem k edge' (edges_dict s))
            = PyDict.keys (edges_dict s)) as Hkeys.
    { apply pydict_setitem_Some. by eexists. }
    split; [rewrite Hother by (by left); by apply lookup_merge_Some|].
    split; [apply pydict_get_setitem_eq|].
    split; [done|].
    intros z. rewrite !pydict_get_None. by rewrite Hkeys. }
  split; [apply node_keys_exec | apply edge_keys_exec].
Qed.

Lemma id_field_rewrite_keeps_key_witness :
  is_Some (get_node_by_id 1 example_store)
  ∧ id_and_colour !! "id" = Some (VInt 7)
  ∧ get_node_by_id 7 example_store = None
  ∧ (∃ node' s',
       update_node 1 id_and_colour example_store = (Some node', s')
       ∧ node' !! "id" = Some (VInt 7)
       ∧ get_node_by_id 1 s' = Some node'
       ∧ get_node_by_id 7 s' = None)
  ∧ is_Some (get_edge_by_id 1 example_store)
  ∧ get_edge_by_id 7 example_store = None
  ∧ (∃ edge' s',
       update_edge 1 id_and_colour example_store = (Some edge', s')
       ∧ edge' !! "id" = Some (VInt 7)
       ∧ get_edge_by_id 1 s' = Some edge'
       ∧ get_edge_by_id 7 s' = None)
  ∧ 1 ∈ PyDict.keys (nodes_dict (exec (UpdateNode 1 id_and_colour) example_store))
  ∧ 1 ∈ PyDict.keys (nodes_dict example_store)
  ∧ 1 ∈ PyDict.keys (edges_dict (exec (UpdateEdge 1 id_and_colour) example_store))
  ∧ 1 ∈ PyDict.keys (edges_dict example_store).
Proof.
  destruct id_field_rewrite_keeps_key as (Hn & He & Hnk & Hek).
  assert (id_and_colour !! "id" = Some (VInt 7)) as Hid by done.
  assert (get_node_by_id 7 example_store = None) as Hn7 by done.
  assert (get_edge_by_id 7 example_store = None) as He7 by done.
  destruct (get_node_by_id 1 example_store) as [node|] eqn:Hnode;
    [|by vm_compute in Hnode].
  destruct (get_edge_by_id 1 example_store) as [edge|] eqn:Hedge;
    [|by vm_compute in Hedge].
  split; [by eexists|]. split; [done|]. split; [done|].
  split.
  { destruct (Hn example_store 1 id_and_colour _ node Hnode Hid)
      as (node' & s' & Hrun & Hfield & Hget & _ & Hnone).
    exists node', s'. auto. }
  split; [by eexists|]. split; [done|].
  split.
  { destruct (He example_store 1 id_and_colour _ edge Hedge Hid)
      as (edge' & s' & Hrun & Hfield & Hget & _ & Hnone).
    exists edge', s'. auto. }
  assert (1 ∈ PyDict.keys
            (nodes_dict (exec (UpdateNode 1 id_and_colour) example_store)))
    as Hk1 by (apply elem_of_cons; by left).
  assert (1 ∈ PyDict.keys
            (edges_dict (exec (UpdateEdge 1 id_and_colour) example_store)))
    as Hk2 by (apply elem_of_cons; by left).
  split; [done|].
  split; [by destruct (Hnk _ _ _ Hk1) as [?|[? _]]|].
  split; [done|].
  by destruct (Hek _ _ _ Hk2) as [?|[? _]].
Defined.

(** * Counters *)

(** C9. In every state reachable from a fresh store by any sequence of
    calls, every key of the node map is below the node counter and every key
    of the edge map is below the edge counter; so the id [add_node] assigns
    (the node counter) and the id a successful [add_edge] assigns (the edge
    counter) are not keys of their maps at the time of the call. *)
Theorem keys_below_counters (s : GraphData) :
  reachable s →
  Forall (λ k, k < node_counter s) (PyDict.keys (nodes_dict s))
  ∧ Forall (λ k, k < edge_counter s) (PyDict.keys (edges_dict s))
  ∧ (∀ name x y,
       (add_node name x y s).1 !! "id" = Some (VInt (node_counter s))
       ∧ (node_counter s ∉ PyDict.keys (nodes_dict s))
       ∧ get_node_by_id (node_counter s) s = None)
  ∧ (∀ f t d c p q edge s',
       add_edge f t d c p q s = (Some edge, s') →
       edge !! "id" = Some (VInt (edge_counter s))
       ∧ (edge_counter s ∉ PyDict.keys (edges_dict s))
       ∧ get_edge_by_id (edge_counter s) s = None).
Proof.
  intros Hok%reachable_store_ok.
  assert (Forall (λ k, k < node_counter s) (PyDict.keys (nodes_dict s))) as Hn.
  { eapply Forall_impl; [apply (ok_nodes_lt _ Hok)|]. simpl. lia. }
  assert (Forall (λ k, k < edge_counter s) (PyDict.keys (edges_dict s))) as He.
  { eapply Forall_impl; [apply (ok_edges_lt _ Hok)|]. simpl. lia. }
  assert (node_counter s ∉ PyDict.keys (nodes_dict s)) as Hnfresh.
  { rewrite Forall_forall in Hn. intros Hin%Hn. lia. }
  assert (edge_counter s ∉ PyDict.keys (edges_dict s)) as Hefresh.
  { rewrite Forall_forall in He. intros Hin%He. lia. }
  split; [done|]. split; [done|]. split.
  - intros name x y. split; [done|]. split; [done|].
    by apply pydict_get_None.
  - intros f t d c p q edge s' [-> _]%add_edge_Some.
    split; [done|]. split; [done|]. by apply pydict_get_None.
Qed.

Lemma keys_below_counters_witness :
  reachable example_store
  ∧ Forall (λ k, k < 3) (PyDict.keys (nodes_dict example_store))
  ∧ Forall (λ k, k < 2) (PyDict.keys (edges_dict example_store))
  ∧ get_node_by_id 3 example_store = None
  ∧ get_edge_by_id 2 example_store = None.
Proof.
  assert (reachable example_store) as Hr by (by exists example_ops).
  destruct (keys_below_counters example_store Hr) as (Hn & He & Hadd & _).
  split; [done|]. split; [exact Hn|]. split; [exact He|].
  split; [|done]. by destruct (Hadd VNone VNone VNone) as (_ & _ & ?).
Defined.

(** * Node ids *)

Lemma seqZ_strictly_sorted (m : Z) (n : nat) :
  StronglySorted Z.lt (seqZ m (Z.of_nat n)).
Proof.
  revert m. induction n as [|n IH]; intros m.
  - rewrite seqZ_nil by lia. constructor.
  - rewrite seqZ_cons by lia. apply StronglySorted_cons. split.
    + apply Forall_seqZ. lia.
    + replace (Z.pred (Z.of_nat (S n))) with (Z.of_nat n) by lia. apply IH.
Qed.

Lemma max_id_nonneg ids : 0 ≤ max_id ids.
Proof. unfold max_id. induction ids; simpl; lia. Qed.

Lemma max_id_seqZ (m : Z) (n : nat) :
  1 ≤ m → Z.max (m - 1) (max_id (seqZ m (Z.of_nat n))) = m - 1 + Z.of_nat n.
Proof.
  revert m. induction n as [|n IH]; intros m Hm.
  - rewrite seqZ_nil by lia. unfold max_id. simpl. lia.
  - rewrite seqZ_cons by lia.
    replace (Z.pred (Z.of_nat (S n))) with (Z.of_nat n) by lia.
    specialize (IH (Z.succ m)). unfold max_id in *. simpl. lia.
Qed.

Lemma add_node_count_cons o ops :
  add_node_count (o :: ops)
  = (if is_add_node o then 1 else 0) + add_node_count ops.
Proof.
  unfold add_node_count. rewrite filter_cons.
  destruct (is_add_node o); simpl length; lia.
Qed.

Lemma add_node_count_nonneg ops : 0 ≤ add_node_count ops.
Proof. unfold add_node_count. lia. Qed.

(** Only [add_node] and [clear_all] move the node counter. *)
Lemma node_counter_exec o s :
  is_clear o = false →
  node_counter (exec o s) = node_counter s + (if is_add_node o then 1 else 0).
Proof.
  destruct o as [name x y|node_id updates|node_id|f t d c p q|edge_id updates|edge_id|];
    simpl; intros Hc; try done.
  - unfold update_node. destruct (PyDict.get _ _); simpl; lia.
  - unfold delete_node. destruct (PyDict.contains _ _); [|simpl; lia].
    destruct (edges_to_remove _ _); simpl; lia.
  - unfold add_edge. destruct (negb _ || negb _); simpl; lia.
  - unfold update_edge. destruct (PyDict.get _ _); simpl; lia.
  - unfold delete_edge. destruct (PyDict.contains _ _); simpl; lia.
Qed.

Lemma node_ids_assigned_seq ops s :
  Forall (λ o, is_clear o = false) ops →
  node_ids_assigned ops s
  = (λ z, Some (VInt z)) <$> seqZ (node_counter s) (add_node_count ops)
  ∧ node_counter (execs ops s) = node_counter s + add_node_count ops.
Proof.
  revert s. induction ops as [|o ops IH]; intros s Hops.
  - split; [reflexivity|]. unfold add_node_count, execs. simpl. lia.
  - apply Forall_cons in Hops as [Ho Hops].
    destruct (IH (exec o s) Hops) as [IHids IHc].
    pose proof (node_counter_exec o s Ho) as Hc.
    pose proof (add_node_count_nonneg ops) as Hpos.
    rewrite add_node_count_cons. unfold execs in *. simpl foldl.
    rewrite IHc, Hc. split; [|lia].
    destruct o; try discriminate Ho; cbn [node_ids_assigned];
      cbn [is_add_node] in *; rewrite IHids, Hc.
    2-6: by rewrite Z.add_0_r, Z.add_0_l.
    rewrite (seqZ_cons (node_counter s)) by lia.
    rewrite fmap_cons. f_equal. do 2 f_equal; lia.
Qed.

(** C4. [add_node] is total: for every name (the empty string too), [x]
    and [y] it returns the node it has stored under the current node
    counter, with that counter as ['id'], and moves the counter up by one.
    Over any run of calls without [clear_all] the ids given out by the
    [add_node] calls are, in call order, [c, c+1, c+2, ...] from the counter
    [c] at the start: they rise strictly and none comes twice, whatever is
    deleted or updated in between.  On a fresh store they are [1, 2, 3, ...]
    and the counter after the run, the next id, is one more than the largest
    id given out so far. *)
Theorem add_node_ids_increase :
  (∀ name x y s,
     ∃ node s',
       add_node name x y s = (node, s')
       ∧ node !! "id" = Some (VInt (node_counter s))
       ∧ node !! "name" = Some name
       ∧ node !! "x" = Some x
       ∧ node !! "y" = Some y
       ∧ get_node_by_id (node_counter s) s' = Some node
       ∧ node_counter s' = node_counter s + 1)
  ∧ (∀ ops s,
       Forall (λ o, is_clear o = false) ops →
       ∃ ids,
         node_ids_assigned ops s = (λ z, Some (VInt z)) <$> ids
         ∧ ids = seqZ (node_counter s) (add_node_count ops)
         ∧ StronglySorted Z.lt ids
         ∧ NoDup ids
         ∧ node_counter (execs ops s) = node_counter s + add_node_count ops)
  ∧ (∀ ops,
       Forall (λ o, is_clear o = false) ops →
       ∃ ids,
         node_ids_assigned ops init = (λ z, Some (VInt z)) <$> ids
         ∧ ids = seqZ 1 (add_node_count ops)
         ∧ node_counter (execs ops init) = max_id ids + 1).
Proof.
  split.
  { intros name x y s. eexists _, _. split; [done|].
    repeat (split; [done|]).
    split; [|done]. unfold get_node_by_id. simpl. apply pydict_get_setitem_eq. }
  split.
  - intros ops s Hops.
    destruct (node_ids_assigned_seq ops s Hops) as [Hids Hc].
    eexists. split; [done|]. split; [done|].
    split; [apply seqZ_strictly_sorted|].
    split; [apply NoDup_seqZ|done].
  - intros ops Hops.
    destruct (node_ids_assigned_seq ops init Hops) as [Hids Hc].
    eexists. split; [done|]. split; [done|].
    rewrite Hc. simpl.
    pose proof (max_id_nonneg (seqZ 1 (add_node_count ops))) as Hpos.
    pose proof (max_id_seqZ 1 (length (filter (λ o, is_add_node o = true) ops)))
      as Hmax.
    fold (add_node_count ops) in Hmax. lia.
Qed.

Lemma add_node_ids_increase_witness :
  Forall (λ o, is_clear o = false) add_delete_add
  ∧ node_ids_assigned add_delete_add init
    = [Some (VInt 1); Some (VInt 2); Some (VInt 3)]
  ∧ node_counter (execs add_delete_add init) = 4
  ∧ PyDict.keys (nodes_dict (execs add_delete_add init)) = [1; 3].
Proof.
  destruct add_node_ids_increase as (_ & Hrun & Hfresh).
  assert (Forall (λ o, is_clear o = false) add_delete_add) as Hops.
  { repeat constructor. }
  split; [done|].
  destruct (Hfresh add_delete_add Hops) as (ids & Hids & -> & _).
  split; [by rewrite Hids|].
  destruct (Hrun add_delete_add init Hops) as (ids & _ & _ & _ & _ & Hc).
  split; [by rewrite Hc|done].
Defined.

(** * Statistics *)

Lemma sum_from_ints (l : list value) (acc : Z) :
  forallb is_int l = true →
  sum_from (VInt acc) l = Ok (VInt (acc + int_sum (int_of <$> l))).
Proof.
  revert acc. induction l as [|v l IH]; intros acc; simpl.
  - intros _. by rewrite Z.add_0_r.
  - intros [Hv Hl]%andb_true_iff.
    destruct v; try discriminate Hv; simpl; rewrite (IH _ Hl);
      do 2 f_equal; symmetry; apply Z.add_assoc.
Qed.

Lemma py_sum_ints (l : list value) :
  all_ints l = true → py_sum l = Ok (VInt (int_sum (int_of <$> l))).
Proof. intros Hl. unfold py_sum. by rewrite (sum_from_ints l 0 Hl). Qed.

(** [0 + f] is [0.0 + f]: the int start value is converted first. *)
(** A field that is not a number makes [sum] raise (at that field, or
    earlier). *)
Lemma sum_from_non_number (l : list value) (acc : value) (v : value) :
  is_Some (as_number acc) → v ∈ l → as_number v = None →
  is_Ok (sum_from acc l) = false.
Proof.
  intros Hacc Hin Hv. revert acc Hacc.
  induction l as [|w l IH]; intros acc [a Ha]; [by apply elem_of_nil in Hin|].
  simpl. destruct (py_add acc w) as [acc'|e] eqn:Hadd; [|done]. simpl.
  unfold py_add in Hadd. rewrite Ha in Hadd.
  destruct (as_number w) as [b|] eqn:Hw.
  - apply elem_of_cons in Hin as [->|Hin]; [congruence|].
    apply IH; [done|].
    destruct a, b; simpl in Hadd;
      repeat match type of Hadd with
             | context [float_of_int ?z] => destruct (float_of_int z); simpl in Hadd
             end; simplify_eq; by eexists.
  - destruct acc; try discriminate Ha; destruct w; discriminate Hadd.
Qed.

Lemma stats_raises_on_non_number (s : GraphData) (v : value) :
  v ∈ column "cost" s ∨ v ∈ column "duration" s →
  as_number v = None →
  is_Ok (get_graph_stats s) = false.
Proof.
  intros Hin Hv. unfold get_graph_stats.
  fold (column "cost" s) (column "duration" s).
  assert (∀ l, v ∈ l → is_Ok (py_sum l) = false) as Hsum.
  { intros l Hl. eapply sum_from_non_number; [by eexists|done|done]. }
  destruct Hin as [Hin%Hsum|Hin%Hsum].
  - by destruct (py_sum (column "cost" s)).
  - destruct (py_sum (column "cost" s)); [|done]. simpl.
    by destruct (py_sum (column "duration" s)).
Qed.

Lemma column_nil key s : column key s = [] ↔ edges_dict s = [].
Proof.
  unfold column, PyDict.values. split.
  - intros H. by destruct (edges_dict s).
  - by intros ->.
Qed.

Lemma sum_from_float_acc (l : list value) (x : float) :
  (is_Ok (sum_from (VFloat x) l) = true
   ↔ forallb is_number l = true ∧ forallb fits_float (ints_of l) = true)
  ∧ (∀ v, sum_from (VFloat x) l = Ok v → is_float v = true).
Proof.
  revert x. induction l as [|w l IH]; intros x.
  { split; [done|]. by intros v [= <-]. }
  cbn [sum_from forallb]. unfold ints_of, is_number at 1, py_add.
  cbn [omap list_omap as_number]. fold ints_of.
  destruct (as_number w) as [[z|y]|] eqn:Hw; cbn [number_add forallb].
  - unfold fits_float at 1.
    destruct (float_of_int z) as [y|e]; cbn [mbind result_bind is_Ok andb].
    + apply IH.
    + split; [split; [done|by intros [_ ?]]|done].
  - cbn [mbind result_bind andb]. apply IH.
  - cbn [mbind result_bind is_Ok andb].
    split; [split; [done|by intros [? _]]|done].
Qed.

Lemma sum_from_int_acc (l : list value) (a : Z) :
  (is_Ok (sum_from (VInt a) l) = true
   ↔ forallb is_number l = true ∧ forallb fits_float (conversions a l) = true)
  ∧ (∀ v, sum_from (VInt a) l = Ok v → has_float l = true → is_float v = true).
Proof.
  revert a. induction l as [|w l IH]; intros a.
  { split; [done|]. by intros v _ ?. }
  cbn [sum_from forallb conversions]. unfold is_number at 1, py_add, has_float.
  cbn [as_number existsb]. fold (has_float l).
  destruct (as_number w) as [[z|y]|] eqn:Hw; cbn [number_add forallb].
  - cbn [mbind result_bind andb].
    assert (is_float w = false) as -> by (by destruct w).
    apply IH.
  - unfold fits_float at 1.
    destruct (float_of_int a) as [x|e]; cbn [mbind result_bind is_Ok andb].
    + destruct (sum_from_float_acc l (x + y)) as [Hok Hkind]. split; [done|].
      intros v Hv _. by apply Hkind.
    + split; [split; [done|by intros [_ ?]]|done].
  - cbn [mbind result_bind is_Ok andb].
    split; [split; [done|by intros [? _]]|done].
Qed.

Lemma py_sum_defined (l : list value) :
  is_Ok (py_sum l) = true ↔ sum_defined l = true.
Proof.
  unfold py_sum, sum_defined. rewrite andb_true_iff.
  apply sum_from_int_acc.
Qed.

Lemma all_ints_sum_defined (l : list value) : all_ints l = true → sum_defined l = true.
Proof. intros Hl. apply py_sum_defined. by rewrite py_sum_ints. Qed.




(** * Checks on concrete values *)

Example py_eq_int_examples :
  py_eq_int (VFloat 1) 1 = true
  ∧ py_eq_int (VFloat 0.5) 0 = false
  ∧ py_eq_int (VFloat (-3)) (-3) = true
  ∧ py_eq_int (VFloat (-0)) 0 = true
  ∧ py_eq_int (VFloat 1e22) (10 ^ 22) = true
  ∧ py_eq_int (VFloat 9007199254740992) (2 ^ 53) = true
  ∧ py_eq_int (VFloat 9007199254740992) (2 ^ 53 + 1) = false
  ∧ py_eq_int (VFloat nan) 0 = false
  ∧ py_eq_int (VFloat infinity) 1 = false
  ∧ py_eq_int (VBool true) 1 = true
  ∧ py_eq_int (VInt 2) 2 = true
  ∧ py_eq_int (VStr "1") 1 = false
  ∧ py_eq_int VNone 0 = false.
Proof. repeat split; reflexivity. Qed.

Example py_sum_examples :
  py_sum [] = Ok (VInt 0)
  ∧ py_sum [VInt 10; VInt 5] = Ok (VInt 15)
  ∧ py_sum [VFloat 10; VFloat 0.5] = Ok (VFloat 10.5)
  ∧ py_sum [VInt 1; VFloat 0.5; VBool true] = Ok (VFloat 2.5)
  ∧ py_sum [VFloat (-0)] = Ok (VFloat 0)
  ∧ py_sum [VInt (10 ^ 400); VFloat 1] = Raise OverflowError
  ∧ py_sum [VInt 1; VStr "abc"] = Raise TypeError
  ∧ py_sum [VNone] = Raise TypeError.
Proof. repeat split; reflexivity. Qed.

(** The worked example: the two nodes get ids 1 and 2, the edge gets id 1
    and weight 3; deleting node 1 removes the edge. *)
Example worked_example :
  PyDict.keys (nodes_dict example_store) = [1; 2]
  ∧ PyDict.keys (edges_dict example_store) = [1]
  ∧ get_edge_by_id 1 example_store ≫= (.!! "weight") = Some (VInt 3)
  ∧ get_edge_by_id 1 example_store ≫= (.!! "from") = Some (VInt 1)
  ∧ (delete_node 1 example_store).1 = Ok true
  ∧ get_edges_list (delete_node 1 example_store).2 = []
  ∧ PyDict.keys (nodes_dict (delete_node 1 example_store).2) = [2].
Proof. repeat split; reflexivity. Qed.

(** An edge whose ['from'] was rewritten to the float [1.0] is still
    removed with node 1, and one whose ['from'] is the text ["1"] is not. *)
Example cascade_uses_python_equality :
  get_edges_list
    (delete_node 1
       (exec (UpdateEdge 1 {[ "from" := VFloat 1; "to" := VInt 2 ]})
          example_store)).2 = []
  ∧ length (get_edges_list
      (delete_node 1
         (exec (UpdateEdge 1 {[ "from" := VStr "1"; "to" := VInt 2 ]})
            example_store)).2) = 1%nat.
Proof. split; reflexivity. Qed.

(** * Listing order *)

Lemma StronglySorted_sublist {A} (R : relation A) (l l' : list A) :
  l' `sublist_of` l → StronglySorted R l → StronglySorted R l'.
Proof.
  intros Hsub. induction Hsub as [|x l1 l2 Hsub IH|x l1 l2 Hsub IH].
  - done.
  - rewrite !StronglySorted_cons. intros [Hx Hl].
    split; [by eapply sublist_Forall|auto].
  - rewrite StronglySorted_cons. intros [_ Hl]. auto.
Qed.

Lemma pydict_keys_setitem_sorted {V} (k : Z) (v : V) (d : list (Z * V)) :
  StronglySorted Z.lt (PyDict.keys d) →
  Forall (λ j, j < k) (PyDict.keys d) →
  StronglySorted Z.lt (PyDict.keys (PyDict.setitem k v d)).
Proof.
  intros Hs Hlt.
  assert (PyDict.get k d = None) as Hget.
  { apply pydict_get_None. rewrite Forall_forall in Hlt. intros Hin%Hlt. lia. }
  rewrite pydict_setitem_None by done. unfold PyDict.keys in *.
  rewrite fmap_app. apply StronglySorted_app. split; [|split].
  - intros x y Hx ->%list_elem_of_singleton.
    rewrite Forall_forall in Hlt. by apply Hlt.
  - done.
  - repeat constructor.
Qed.

Lemma pydict_sublist_keys_sorted {V} (d d' : list (Z * V)) :
  d' `sublist_of` d →
  StronglySorted Z.lt (PyDict.keys d) → StronglySorted Z.lt (PyDict.keys d').
Proof.
  intros Hsub. apply StronglySorted_sublist. unfold PyDict.keys.
  by apply fmap_sublist.
Qed.

Lemma store_ok_nodes_below s :
  store_ok s → Forall (λ k, k < node_counter s) (PyDict.keys (nodes_dict s)).
Proof.
  intros Hok. eapply Forall_impl; [apply (ok_nodes_lt _ Hok)|]. simpl. lia.
Qed.

Lemma store_ok_edges_below s :
  store_ok s → Forall (λ k, k < edge_counter s) (PyDict.keys (edges_dict s)).
Proof.
  intros Hok. eapply Forall_impl; [apply (ok_edges_lt _ Hok)|]. simpl. lia.
Qed.

Lemma store_ok_node_counter_fresh s :
  store_ok s → PyDict.get (node_counter s) (nodes_dict s) = None.
Proof.
  intros Hok%store_ok_nodes_below. apply pydict_get_None.
  rewrite Forall_forall in Hok. intros Hin%Hok. lia.
Qed.

Lemma store_ok_edge_counter_fresh s :
  store_ok s → PyDict.get (edge_counter s) (edges_dict s) = None.
Proof.
  intros Hok%store_ok_edges_below. apply pydict_get_None.
  rewrite Forall_forall in Hok. intros Hin%Hok. lia.
Qed.

Lemma keys_sorted_exec o s :
  store_ok s →
  StronglySorted Z.lt (PyDict.keys (nodes_dict s))
  ∧ StronglySorted Z.lt (PyDict.keys (edges_dict s)) →
  StronglySorted Z.lt (PyDict.keys (nodes_dict (exec o s)))
  ∧ StronglySorted Z.lt (PyDict.keys (edges_dict (exec o s))).
Proof.
  intros Hok [Hn He].
  destruct o as [name x y|node_id updates|node_id|f t d c p q|edge_id updates|edge_id|];
    simpl.
  - split; [|done].
    apply pydict_keys_setitem_sorted; [done|by apply store_ok_nodes_below].
  - unfold update_node. destruct (PyDict.get _ _) eqn:Hget; simpl; [|done].
    by rewrite pydict_setitem_Some.
  - unfold delete_node. destruct (PyDict.contains _ _); [|done].
    destruct (edges_to_remove _ _); simpl.
    + rewrite pydict_foldl_delitem. split.
      * eapply pydict_sublist_keys_sorted; [apply pydict_delitem_sublist|done].
      * eapply pydict_sublist_keys_sorted; [|done]. apply sublist_filter.
    + split; [|done].
      eapply pydict_sublist_keys_sorted; [apply pydict_delitem_sublist|done].
  - unfold add_edge. destruct (negb _ || negb _); simpl; [done|].
    split; [done|].
    apply pydict_keys_setitem_sorted; [done|by apply store_ok_edges_below].
  - unfold update_edge. destruct (PyDict.get _ _) eqn:Hget; simpl; [|done].
    by rewrite pydict_setitem_Some.
  - unfold delete_edge. destruct (PyDict.contains _ _); simpl; [|done].
    split; [done|].
    eapply pydict_sublist_keys_sorted; [apply pydict_delitem_sublist|done].
  - split; constructor.
Qed.

Lemma pydict_listing {V} (d : list (Z * V)) :
  PyDict.wf d →
  Forall2 (λ k v, PyDict.get k d = Some v) (PyDict.keys d) (PyDict.values d).
Proof.
  intros Hwf. unfold PyDict.keys, PyDict.values.
  apply Forall2_fmap, Forall_Forall2_diag, Forall_forall.
  intros [k v] Hin. simpl. by apply pydict_elem_get.
Qed.

Lemma reachable_keys_sorted (s : GraphData) :
  reachable s →
  StronglySorted Z.lt (PyDict.keys (nodes_dict s))
  ∧ StronglySorted Z.lt (PyDict.keys (edges_dict s)).
Proof.
  intros [ops ->]. unfold execs.
  assert (store_ok init) as Hok by apply store_ok_init.
  assert (StronglySorted Z.lt (PyDict.keys (nodes_dict init))
          ∧ StronglySorted Z.lt (PyDict.keys (edges_dict init))) as Hs.
  { split; constructor. }
  revert Hok Hs. generalize init as s.
  induction ops as [|o ops IH]; intros s Hok Hs; simpl; [done|].
  apply IH; [by apply store_ok_exec|by apply keys_sorted_exec].
Qed.

(** X1. In every state the store can reach, [get_nodes_list] lists the
    nodes by strictly increasing id, the order in which they were created:
    the ids of the node map are in strictly increasing order, and the i-th
    record of [get_nodes_list] is the one that [get_node_by_id] returns for
    the i-th of them, so every node is listed once and nothing else is.  The
    same holds of [get_edges_list], the edge map and [get_edge_by_id]. *)
Theorem listing_in_key_order (s : GraphData) :
  reachable s →
  (StronglySorted Z.lt (PyDict.keys (nodes_dict s))
   ∧ (∀ k, k ∈ PyDict.keys (nodes_dict s) ↔ is_Some (get_node_by_id k s))
   ∧ Forall2 (λ k node, get_node_by_id k s = Some node)
       (PyDict.keys (nodes_dict s)) (get_nodes_list s))
  ∧ (StronglySorted Z.lt (PyDict.keys (edges_dict s))
     ∧ (∀ k, k ∈ PyDict.keys (edges_dict s) ↔ is_Some (get_edge_by_id k s))
     ∧ Forall2 (λ k edge, get_edge_by_id k s = Some edge)
         (PyDict.keys (edges_dict s)) (get_edges_list s)).
Proof.
  intros Hr. destruct (reachable_keys_sorted s Hr) as [Hn He].
  apply reachable_store_ok in Hr. destruct Hr as [Hwn Hwe _ _ _ _ _].
  unfold get_node_by_id, get_edge_by_id, get_nodes_list, get_edges_list.
  split; (split; [done|]; split; [|by apply pydict_listing]).
  - intros k. rewrite <-not_eq_None_Some, pydict_get_None.
    destruct (decide (k ∈ PyDict.keys (nodes_dict s))); naive_solver.
  - intros k. rewrite <-not_eq_None_Some, pydict_get_None.
    destruct (decide (k ∈ PyDict.keys (edges_dict s))); naive_solver.
Qed.

Lemma listing_in_key_order_witness :
  reachable busy_store
  ∧ PyDict.keys (nodes_dict busy_store) = [1; 3; 4]
  ∧ PyDict.keys (edges_dict busy_store) = [2]
  ∧ Forall2 (λ k node, get_node_by_id k busy_store = Some node)
      [1; 3; 4] (get_nodes_list busy_store)
  ∧ Forall2 (λ k edge, get_edge_by_id k busy_store = Some edge)
      [2] (get_edges_list busy_store).
Proof.
  assert (reachable busy_store) as Hr by (by exists busy_ops).
  assert (PyDict.keys (nodes_dict busy_store) = [1; 3; 4]) as Hn
    by (vm_compute; reflexivity).
  assert (PyDict.keys (edges_dict busy_store) = [2]) as He
    by (vm_compute; reflexivity).
  split; [exact Hr|]. split; [exact Hn|]. split; [exact He|].
  destruct (listing_in_key_order busy_store Hr)
    as [(_ & _ & Hnodes) (_ & _ & Hedges)].
  rewrite Hn in Hnodes. rewrite He in Hedges. by split.
Defined.

(** X2. In every reachable state [add_node] puts the new node last in the
    node map, under the node counter, and a successful [add_edge] puts the new
    edge last in the edge map, under the edge counter: the listings grow at
    the end and keep the older records where they were. *)
Theorem add_appends_last (s : GraphData) :
  reachable s →
  (∀ name x y,
     nodes_dict (add_node name x y s).2
     = nodes_dict s ++ [(node_counter s, (add_node name x y s).1)]
     ∧ get_nodes_list (add_node name x y s).2
       = get_nodes_list s ++ [(add_node name x y s).1])
  ∧ (∀ f t d c p q edge s',
       add_edge f t d c p q s = (Some edge, s') →
       edges_dict s' = edges_dict s ++ [(edge_counter s, edge)]
       ∧ get_edges_list s' = get_edges_list s ++ [edge]).
Proof.
  intros Hok%reachable_store_ok. split.
  - intros name x y. simpl.
    rewrite pydict_setitem_None by (by apply store_ok_node_counter_fresh).
    split; [done|]. unfold get_nodes_list, PyDict.values. simpl.
    by rewrite fmap_app.
  - intros f t d c p q edge s' [-> ->]%add_edge_Some. simpl.
    rewrite pydict_setitem_None by (by apply store_ok_edge_counter_fresh).
    split; [done|]. unfold get_edges_list, PyDict.values. simpl.
    by rewrite fmap_app.
Qed.

Lemma add_appends_last_witness :
  reachable example_store
  ∧ PyDict.keys (nodes_dict (add_node (VStr "C") (VInt 0) (VInt 0) example_store).2)
    = [1; 2; 3]
  ∧ get_nodes_list (add_node (VStr "C") (VInt 0) (VInt 0) example_store).2
    = get_nodes_list example_store
      ++ [(add_node (VStr "C") (VInt 0) (VInt 0) example_store).1].
Proof.
  assert (reachable example_store) as Hr by (by exists example_ops).
  destruct (add_appends_last example_store Hr) as [Hadd _].
  split; [done|]. split; [done|].
  by destruct (Hadd (VStr "C") (VInt 0) (VInt 0)).
Defined.

(** * Ids are not given out again *)

(** Only a successful [add_edge] and [clear_all] move the edge counter. *)
Lemma edge_counter_exec o s :
  is_clear o = false →
  edge_counter (exec o s)
  = edge_counter s + (if is_add_edge_ok o s then 1 else 0).
Proof.
  destruct o as [name x y|node_id updates|node_id|f t d c p q|edge_id updates|edge_id|];
    simpl; intros Hc; try done.
  - lia.
  - unfold update_node. destruct (PyDict.get _ _); simpl; lia.
  - unfold delete_node. destruct (PyDict.contains _ _); [|simpl; lia].
    destruct (edges_to_remove _ _); simpl; lia.
  - unfold add_edge.
    destruct (PyDict.contains f _), (PyDict.contains t _); simpl; lia.
  - unfold update_edge. destruct (PyDict.get _ _); simpl; lia.
  - unfold delete_edge. destruct (PyDict.contains _ _); simpl; lia.
Qed.

Lemma absent_ids_stay_absent (ops : list op) (s : GraphData) (k : Z) :
  Forall (λ o, is_clear o = false) ops →
  (k < node_counter s → PyDict.get k (nodes_dict s) = None →
   PyDict.get k (nodes_dict (execs ops s)) = None)
  ∧ (k < edge_counter s → PyDict.get k (edges_dict s) = None →
     PyDict.get k (edges_dict (execs ops s)) = None).
Proof.
  unfold execs.
  revert s. induction ops as [|o ops IH]; intros s Hops; simpl; [done|].
  apply Forall_cons in Hops as [Ho Hops].
  destruct (IH (exec o s) Hops) as [IHn IHe]. split.
  - intros Hlt Hnone. apply IHn.
    + rewrite node_counter_exec by done. destruct (is_add_node o); lia.
    + apply pydict_get_None. intros [Hin|[_ ->]]%node_keys_exec; [|lia].
      by apply pydict_get_None in Hnone.
  - intros Hlt Hnone. apply IHe.
    + rewrite edge_counter_exec by done. destruct (is_add_edge_ok o s); lia.
    + apply pydict_get_None. intros [Hin|[_ ->]]%edge_keys_exec; [|lia].
      by apply pydict_get_None in Hnone.
Qed.

(** X3. Over any run of calls without [clear_all], an id below the node
    counter that is not a key of the node map (an id that was deleted) is
    never a key again, and likewise for edge ids: neither map ever takes back
    an id it has given out. *)
Theorem ids_never_come_back (ops : list op) (s : GraphData) (k : Z) :
  Forall (λ o, is_clear o = false) ops →
  (k < node_counter s → get_node_by_id k s = None →
   get_node_by_id k (execs ops s) = None)
  ∧ (k < edge_counter s → get_edge_by_id k s = None →
     get_edge_by_id k (execs ops s) = None).
Proof. apply absent_ids_stay_absent. Qed.

Lemma ids_never_come_back_witness :
  Forall (λ o, is_clear o = false) (drop 4 add_delete_add)
  ∧ 2 < node_counter (execs (take 4 add_delete_add) init)
  ∧ get_node_by_id 2 (execs (take 4 add_delete_add) init) = None
  ∧ get_node_by_id 2 (execs add_delete_add init) = None.
Proof.
  assert (Forall (λ o, is_clear o = false) (drop 4 add_delete_add)) as Hops.
  { repeat constructor. }
  assert (2 < node_counter (execs (take 4 add_delete_add) init)) as Hlt by done.
  assert (get_node_by_id 2 (execs (take 4 add_delete_add) init) = None)
    as Hnone by done.
  repeat (split; [done|]).
  destruct (ids_never_come_back (drop 4 add_delete_add)
              (execs (take 4 add_delete_add) init) 2 Hops) as [Hn _].
  exact (Hn Hlt Hnone).
Defined.

(** * Invariants of runs with restricted updates *)

Lemma pydict_items_setitem_Forall {V} (P : Z * V → Prop) k v (d : list (Z * V)) :
  P (k, v) → Forall P d → Forall P (PyDict.setitem k v d).
Proof.
  intros Hv. induction d as [|[k' v'] d IH]; simpl.
  - intros _. by apply Forall_singleton.
  - rewrite Forall_cons. intros [Hv' Hd].
    destruct (decide (k' = k)); apply Forall_cons; auto.
Qed.

Lemma pydict_get_Forall {V} (P : Z * V → Prop) k v (d : list (Z * V)) :
  Forall P d → PyDict.get k d = Some v → P (k, v).
Proof.
  rewrite Forall_forall. intros HP Hget. by apply HP, pydict_get_Some_elem.
Qed.

Lemma pydict_get_values_Forall {V} (P : V → Prop) k v (d : list (Z * V)) :
  Forall P (PyDict.values d) → PyDict.get k d = Some v → P v.
Proof.
  rewrite Forall_forall. intros HP Hget.
  apply HP, (list_elem_of_fmap_2 snd _ (k, v)). by apply pydict_get_Some_elem.
Qed.

Lemma pydict_get_setitem_is_Some {V} k j v (d : list (Z * V)) :
  is_Some (PyDict.get j d) → is_Some (PyDict.get j (PyDict.setitem k v d)).
Proof.
  destruct (decide (k = j)) as [->|Hne].
  - rewrite pydict_get_setitem_eq. by eexists.
  - by rewrite pydict_get_setitem_ne.
Qed.

(** A property that every allowed call keeps, in the states where the store
    invariant holds, holds after every run of allowed calls. *)
Lemma run_invariant (I : GraphData → Prop) (allowed : op → bool) :
  (∀ o s, allowed o = true → store_ok s → I s → I (exec o s)) →
  I init →
  ∀ ops, Forall (λ o, allowed o = true) ops → I (execs ops init).
Proof.
  intros Hstep Hinit ops. unfold execs.
  assert (store_ok init) as Hok by apply store_ok_init.
  revert Hok Hinit. generalize init as s.
  induction ops as [|o ops IH]; intros s Hok Hs Hops; simpl; [done|].
  apply Forall_cons in Hops as [Ho Hops].
  apply IH; [by apply store_ok_exec|by apply Hstep|done].
Qed.

(** The fields an [update_edge] leaves alone. *)
Lemma update_edge_field edge_id updates s edge key :
  PyDict.get edge_id (edges_dict s) = Some edge →
  lacks key updates = true → key ≠ "weight" →
  ∃ edge',
    (update_edge edge_id updates s).2
    = {| nodes_dict := nodes_dict s;
         edges_dict := PyDict.setitem edge_id edge' (edges_dict s);
         node_counter := node_counter s;
         edge_counter := edge_counter s |}
    ∧ edge' !! key = edge !! key.
Proof.
  intros Hget Hlacks Hkey. unfold update_edge. rewrite Hget.
  unfold lacks in Hlacks. destruct (updates !! key) eqn:Hu; [done|].
  eexists. split; [done|].
  destruct (updates !! "duration").
  - rewrite lookup_insert_ne by done. by apply lookup_union_r.
  - by apply lookup_union_r.
Qed.

Lemma update_node_field node_id updates s node key :
  PyDict.get node_id (nodes_dict s) = Some node →
  lacks key updates = true →
  (update_node node_id updates s).2
  = {| nodes_dict := PyDict.setitem node_id (updates ∪ node) (nodes_dict s);
       edges_dict := edges_dict s;
       node_counter := node_counter s;
       edge_counter := edge_counter s |}
  ∧ (updates ∪ node) !! key = node !! key.
Proof.
  intros Hget Hlacks. unfold update_node. rewrite Hget. split; [done|].
  unfold lacks in Hlacks. destruct (updates !! key) eqn:Hu; [done|].
  by apply lookup_union_r.
Qed.

Lemma id_is_key_exec o s :
  leaves_id o = true → store_ok s →
  Forall (λ kv, kv.2 !! "id" = Some (VInt kv.1)) (nodes_dict s)
  ∧ Forall (λ kv, kv.2 !! "id" = Some (VInt kv.1)) (edges_dict s) →
  Forall (λ kv, kv.2 !! "id" = Some (VInt kv.1)) (nodes_dict (exec o s))
  ∧ Forall (λ kv, kv.2 !! "id" = Some (VInt kv.1)) (edges_dict (exec o s)).
Proof.
  intros Ho Hok [Hn He].
  destruct o as [name x y|node_id updates|node_id|f t d c p q|edge_id updates|edge_id|];
    simpl.
  - split; [|done]. by apply pydict_items_setitem_Forall.
  - destruct (PyDict.get node_id (nodes_dict s)) as [node|] eqn:Hget;
      [|unfold update_node; by rewrite Hget].
    destruct (update_node_field node_id updates s node "id" Hget Ho)
      as [-> Hid].
    simpl. split; [|done]. apply pydict_items_setitem_Forall; [|done].
    simpl. rewrite Hid. apply (pydict_get_Forall _ _ _ _ Hn Hget).
  - unfold delete_node. destruct (PyDict.contains _ _); [|done].
    destruct (edges_to_remove _ _); simpl.
    + rewrite pydict_foldl_delitem. split.
      * eapply sublist_Forall; [apply pydict_delitem_sublist|done].
      * eapply sublist_Forall; [|done]. apply sublist_filter.
    + split; [|done].
      eapply sublist_Forall; [apply pydict_delitem_sublist|done].
  - unfold add_edge. destruct (negb _ || negb _); simpl; [done|].
    split; [done|]. by apply pydict_items_setitem_Forall.
  - destruct (PyDict.get edge_id (edges_dict s)) as [edge|] eqn:Hget;
      [|unfold update_edge; by rewrite Hget].
    destruct (update_edge_field edge_id updates s edge "id" Hget Ho)
      as (edge' & -> & Hid); [done|].
    simpl. split; [done|]. apply pydict_items_setitem_Forall; [|done].
    simpl. rewrite Hid. apply (pydict_get_Forall _ _ _ _ He Hget).
  - unfold delete_edge. destruct (PyDict.contains _ _); simpl; [|done].
    split; [done|].
    eapply sublist_Forall; [apply pydict_delitem_sublist|done].
  - split; constructor.
Qed.

(** X5. After any run of calls from a fresh store in which no update writes
    ['id'], the ['id'] field of every stored node and of every stored edge is
    the key it is stored under: what [get_node_by_id(k)] and
    [get_edge_by_id(k)] return has ['id'] equal to [k]. *)
Theorem id_field_is_key (ops : list op) :
  Forall (λ o, leaves_id o = true) ops →
  (∀ k node,
     get_node_by_id k (execs ops init) = Some node →
     node !! "id" = Some (VInt k))
  ∧ (∀ k edge,
       get_edge_by_id k (execs ops init) = Some edge →
       edge !! "id" = Some (VInt k)).
Proof.
  intros Hops.
  destruct (run_invariant
    (λ s, Forall (λ kv, kv.2 !! "id" = Some (VInt kv.1)) (nodes_dict s)
          ∧ Forall (λ kv, kv.2 !! "id" = Some (VInt kv.1)) (edges_dict s))
    leaves_id id_is_key_exec (conj (Forall_nil_2 _) (Forall_nil_2 _)) ops Hops)
    as [Hn He].
  split; intros k r Hget.
  - apply (pydict_get_Forall _ _ _ _ Hn Hget).
  - apply (pydict_get_Forall _ _ _ _ He Hget).
Qed.

Lemma id_field_is_key_witness :
  Forall (λ o, leaves_id o = true) busy_ops
  ∧ PyDict.keys (nodes_dict busy_store) = [1; 3; 4]
  ∧ (∀ k node,
       get_node_by_id k busy_store = Some node → node !! "id" = Some (VInt k))
  ∧ (∀ k edge,
       get_edge_by_id k busy_store = Some edge → edge !! "id" = Some (VInt k)).
Proof.
  assert (Forall (λ o, leaves_id o = true) busy_ops) as Hops.
  { repeat constructor. }
  split; [done|]. split; [vm_compute; reflexivity|].
  exact (id_field_is_key busy_ops Hops).
Defined.

Lemma weight_is_duration_exec o s :
  leaves_weight o = true → store_ok s →
  Forall (λ edge, is_Some (edge !! "duration")
                  ∧ edge !! "weight" = edge !! "duration") (get_edges_list s) →
  Forall (λ edge, is_Some (edge !! "duration")
                  ∧ edge !! "weight" = edge !! "duration")
    (get_edges_list (exec o s)).
Proof.
  intros Ho Hok Hall. unfold get_edges_list in *.
  destruct o as [name x y|node_id updates|node_id|f t d c p q|edge_id updates|edge_id|];
    simpl.
  - done.
  - unfold update_node. by destruct (PyDict.get _ _).
  - unfold delete_node. destruct (PyDict.contains _ _); [|done].
    destruct (edges_to_remove _ _); simpl; [|done].
    rewrite pydict_foldl_delitem.
    eapply pydict_sublist_values; [|done]. apply sublist_filter.
  - unfold add_edge. destruct (negb _ || negb _); simpl; [done|].
    apply pydict_values_setitem_Forall; [|done]. split; [by eexists|done].
  - unfold update_edge.
    destruct (PyDict.get edge_id (edges_dict s)) as [edge|] eqn:Hget; [|done].
    simpl. apply pydict_values_setitem_Forall; [|done].
    destruct (pydict_get_values_Forall _ _ _ _ Hall Hget) as [Hd Hw].
    unfold leaves_weight, lacks in Ho.
    destruct (updates !! "duration") as [d|] eqn:Hud.
    + rewrite lookup_insert_eq, lookup_insert_ne by done.
      rewrite (lookup_union_Some_l _ _ _ _ Hud). split; [by eexists|done].
    + destruct (updates !! "weight") eqn:Huw; [done|].
      by rewrite !lookup_union_r.
  - unfold delete_edge. destruct (PyDict.contains _ _); simpl; [|done].
    eapply pydict_sublist_values; [apply pydict_delitem_sublist|done].
  - constructor.
Qed.

(** * Sizes *)

Lemma bounded_keys_length (l : list Z) (c : Z) :
  NoDup l → Forall (λ k, 1 ≤ k < c) l → Z.of_nat (length l) ≤ Z.max 0 (c - 1).
Proof.
  intros Hnd Hall.
  assert (l ⊆+ seqZ 1 (c - 1)) as Hsub.
  { apply NoDup_submseteq; [done|]. intros k Hk.
    rewrite Forall_forall in Hall. apply elem_of_seqZ. specialize (Hall k Hk). lia. }
  apply submseteq_length in Hsub. rewrite length_seqZ in Hsub. lia.
Qed.

Lemma filter_length_split {A} (f : A → bool) (l : list A) :
  (length (filter (λ x, f x = true) l) + length (filter (λ x, f x = false) l)
   = length l)%nat.
Proof.
  induction l as [|x l IH]; [done|].
  rewrite !filter_cons. destruct (f x) eqn:Hx; simpl; lia.
Qed.

Lemma pydict_len_delitem {V} k v (d : list (Z * V)) :
  PyDict.wf d → PyDict.get k d = Some v →
  PyDict.len (PyDict.delitem k d) = PyDict.len d - 1.
Proof.
  unfold PyDict.wf, PyDict.keys, PyDict.len.
  induction d as [|[k' v'] d IH]; simpl; [done|].
  rewrite NoDup_cons. intros [Hk' Hd].
  unfold PyDict.delitem in *. rewrite filter_cons. simpl.
  destruct (decide (k' = k)) as [->|Hne].
  - intros _. rewrite decide_False by (by intros []).
    assert (PyDict.get k d = None) as Hnone by (by apply pydict_get_None).
    apply pydict_delitem_absent in Hnone. unfold PyDict.delitem in Hnone.
    rewrite Hnone. lia.
  - intros Hget. rewrite decide_True by done. simpl.
    specialize (IH Hd Hget). lia.
Qed.

Lemma pydict_len_setitem_None {V} k v (d : list (Z * V)) :
  PyDict.get k d = None → PyDict.len (PyDict.setitem k v d) = PyDict.len d + 1.
Proof.
  intros Hnone. rewrite pydict_setitem_None by done.
  unfold PyDict.len. rewrite length_app. simpl. lia.
Qed.

(** X7. In every reachable state the number of nodes is at most the node
    counter minus one and the number of edges at most the edge counter minus
    one: the statistics always show [total_nodes < next_node_id] and
    [total_edges < next_edge_id]. *)
Theorem sizes_below_counters (s : GraphData) :
  reachable s →
  PyDict.len (nodes_dict s) ≤ node_counter s - 1
  ∧ PyDict.len (edges_dict s) ≤ edge_counter s - 1
  ∧ (∀ r, get_graph_stats s = Ok r →
          total_nodes r < next_node_id r ∧ total_edges r < next_edge_id r).
Proof.
  intros Hok%reachable_store_ok.
  pose proof (bounded_keys_length _ _ (ok_nodes_wf _ Hok) (ok_nodes_lt _ Hok)) as Hn.
  pose proof (bounded_keys_length _ _ (ok_edges_wf _ Hok) (ok_edges_lt _ Hok)) as He.
  pose proof (ok_node_counter _ Hok). pose proof (ok_edge_counter _ Hok).
  unfold PyDict.keys in Hn, He. rewrite length_fmap in Hn, He.
  unfold PyDict.len.
  split; [lia|]. split; [lia|].
  intros r. unfold get_graph_stats.
  destruct (py_sum (field_or_zero "cost" <$> _)); simpl; [|done].
  destruct (py_sum (field_or_zero "duration" <$> _)); simpl; [|done].
  intros [= <-]. simpl. unfold PyDict.len. lia.
Qed.

Lemma sizes_below_counters_witness :
  reachable busy_store
  ∧ PyDict.len (nodes_dict busy_store) = 3
  ∧ node_counter busy_store = 5
  ∧ PyDict.len (nodes_dict busy_store) ≤ node_counter busy_store - 1.
Proof.
  assert (reachable busy_store) as Hr by (by exists busy_ops).
  destruct (sizes_below_counters busy_store Hr) as (Hn & _).
  by repeat split.
Defined.

(** X8. How the sizes move, in every reachable state: [add_node] adds one
    node; [delete_node] of a node that is there removes one node and as many
    edges as are incident to it; a successful [add_edge] adds one edge;
    [delete_edge] of an edge that is there removes one edge. *)
Theorem sizes_step (s : GraphData) :
  reachable s →
  (∀ name x y,
     PyDict.len (nodes_dict (add_node name x y s).2)
     = PyDict.len (nodes_dict s) + 1)
  ∧ (∀ node_id,
       is_Some (get_node_by_id node_id s) →
       PyDict.len (nodes_dict (delete_node node_id s).2)
       = PyDict.len (nodes_dict s) - 1
       ∧ PyDict.len (edges_dict (delete_node node_id s).2)
         = PyDict.len (edges_dict s) - incident_count node_id s)
  ∧ (∀ f t d c p q edge s',
       add_edge f t d c p q s = (Some edge, s') →
       PyDict.len (edges_dict s') = PyDict.len (edges_dict s) + 1)
  ∧ (∀ edge_id,
       is_Some (get_edge_by_id edge_id s) →
       PyDict.len (edges_dict (delete_edge edge_id s).2)
       = PyDict.len (edges_dict s) - 1).
Proof.
  intros Hok%reachable_store_ok. split; [|split; [|split]].
  - intros name x y. simpl.
    apply pydict_len_setitem_None. by apply store_ok_node_counter_fresh.
  - intros node_id [node Hget]. unfold get_node_by_id in Hget.
    rewrite delete_node_present
      by (try done; apply pydict_contains_true; by eexists).
    simpl. split.
    + by eapply pydict_len_delitem; [apply Hok|].
    + unfold incident_count, PyDict.len.
      pose proof (filter_length_split (λ kv : Z * record, touches node_id kv.2)
                    (edges_dict s)) as Hsplit.
      simpl in Hsplit. lia.
  - intros f t d c p q edge s' [-> ->]%add_edge_Some. simpl.
    apply pydict_len_setitem_None. by apply store_ok_edge_counter_fresh.
  - intros edge_id [edge Hget]. unfold get_edge_by_id in Hget.
    rewrite delete_edge_present by (apply pydict_contains_true; by eexists).
    simpl. by eapply pydict_len_delitem; [apply Hok|].
Qed.

Lemma sizes_step_witness :
  reachable example_store
  ∧ is_Some (get_node_by_id 1 example_store)
  ∧ incident_count 1 example_store = 1
  ∧ PyDict.len (nodes_dict (delete_node 1 example_store).2) = 1
  ∧ PyDict.len (edges_dict (delete_node 1 example_store).2) = 0.
Proof.
  assert (reachable example_store) as Hr by (by exists example_ops).
  assert (is_Some (get_node_by_id 1 example_store)) as Hin by (by eexists).
  destruct (sizes_step example_store Hr) as (_ & Hdel & _).
  destruct (Hdel 1 Hin) as [Hn He].
  split; [done|]. split; [done|]. split; [done|].
  split; [by rewrite Hn|by rewrite He].
Defined.

(** * When [add_edge] succeeds *)

(** X9. For int endpoints, as annotated: [add_edge] returns [None] exactly
    when one of the two endpoints is not a key of the node map.  When both
    are, it succeeds, also for a loop ([from_node = to_node]) and for a
    second edge between the same nodes: the new edge has exactly nine fields,
    the edge counter as ['id'], the arguments as ['from'], ['to'],
    ['duration'], ['cost'], ['prerequisites'] and ['postrequisites'], the
    duration again as ['weight'] and an empty ['metadata']; it is stored
    under the edge counter; the nodes, the node counter and the other edges
    are unchanged and the edge counter goes up by one. *)
Theorem add_edge_succeeds_iff (s : GraphData) (from_node to_node : Z)
    (duration cost prerequisites postrequisites : value) :
  ((add_edge from_node to_node duration cost prerequisites postrequisites s).1
   = None
   ↔ get_node_by_id from_node s = None ∨ get_node_by_id to_node s = None)
  ∧ (is_Some (get_node_by_id from_node s) →
     is_Some (get_node_by_id to_node s) →
     ∃ edge s',
       add_edge from_node to_node duration cost prerequisites postrequisites s
       = (Some edge, s')
       ∧ edge !! "id" = Some (VInt (edge_counter s))
       ∧ edge !! "from" = Some (VInt from_node)
       ∧ edge !! "to" = Some (VInt to_node)
       ∧ edge !! "duration" = Some duration
       ∧ edge !! "cost" = Some cost
       ∧ edge !! "prerequisites" = Some prerequisites
       ∧ edge !! "postrequisites" = Some postrequisites
       ∧ edge !! "weight" = Some duration
       ∧ edge !! "metadata" = Some (VDict ∅)
       ∧ size edge = 9%nat
       ∧ get_edge_by_id (edge_counter s) s' = Some edge
       ∧ nodes_dict s' = nodes_dict s
       ∧ node_counter s' = node_counter s
       ∧ edge_counter s' = edge_counter s + 1
       ∧ (∀ j, j ≠ edge_counter s → get_edge_by_id j s' = get_edge_by_id j s)).
Proof.
  unfold get_node_by_id, get_edge_by_id. split.
  - rewrite <-!pydict_contains_false. unfold add_edge.
    destruct (PyDict.contains from_node _), (PyDict.contains to_node _); simpl;
      (split; [intros ?; try done; auto | intros [?|?]; done]).
  - intros Hf Ht. rewrite (add_edge_present _ _ _ _ _ _ _ Hf Ht).
    apply pydict_contains_true in Hf, Ht.
    eexists _, _. split; [done|]. unfold add_edge. rewrite Hf, Ht. simpl.
    repeat (split; [done|]).
    split; [apply pydict_get_setitem_eq|].
    repeat (split; [done|]).
    intros j Hj. by apply pydict_get_setitem_ne.
Qed.

Lemma add_edge_succeeds_iff_witness :
  is_Some (get_node_by_id 1 example_store)
  ∧ (∃ edge s',
       add_edge 1 1 (VInt 3) (VInt 10) (VStr "") (VStr "") example_store
       = (Some edge, s')
       ∧ edge !! "id" = Some (VInt 2)
       ∧ edge !! "from" = Some (VInt 1)
       ∧ edge !! "to" = Some (VInt 1)
       ∧ edge !! "duration" = Some (VInt 3)
       ∧ edge !! "weight" = Some (VInt 3)
       ∧ edge_counter s' = 3).
Proof.
  assert (is_Some (get_node_by_id 1 example_store)) as Hin by (by eexists).
  split; [done|].
  destruct (add_edge_succeeds_iff example_store 1 1 (VInt 3) (VInt 10)
              (VStr "") (VStr "")) as [_ Hok].
  destruct (Hok Hin Hin)
    as (edge & s' & Hrun & Hid & Hf & Ht & Hd & _ & _ & _ & Hw & _ & _ & _
        & _ & _ & Hc & _).
  exists edge, s'. by rewrite Hc.
Defined.

(** * Updates compose *)

Lemma pydict_setitem_setitem {V} k (v1 v2 : V) (d : list (Z * V)) :
  PyDict.setitem k v2 (PyDict.setitem k v1 d) = PyDict.setitem k v2 d.
Proof.
  induction d as [|[k' v'] d IH]; simpl.
  - by rewrite decide_True.
  - destruct (decide (k' = k)) as [->|Hne]; simpl.
    + by rewrite decide_True.
    + rewrite decide_False by done. by rewrite IH.
Qed.

(** X10. Two [update_node] calls on the same id, one after the other, are
    one call with the merged update in which the later update wins; so the
    same update applied twice is that update applied once.  This holds for
    the returned record and for the store, whether the id is there or not. *)
Theorem update_node_composes (s : GraphData) (node_id : Z) (u1 u2 : record) :
  update_node node_id u2 (update_node node_id u1 s).2
  = update_node node_id (u2 ∪ u1) s
  ∧ update_node node_id u1 (update_node node_id u1 s).2
    = update_node node_id u1 s.
Proof.
  assert (∀ a b : record,
    update_node node_id b (update_node node_id a s).2
    = update_node node_id (b ∪ a) s) as Hcomp.
  { intros a b. unfold update_node at 2 3.
    destruct (PyDict.get node_id (nodes_dict s)) as [node|] eqn:Hget; simpl.
    - unfold update_node. simpl.
      rewrite pydict_get_setitem_eq, pydict_setitem_setitem.
      by rewrite (assoc_L (∪)).
    - unfold update_node. by rewrite Hget. }
  split; [apply Hcomp|].
  rewrite Hcomp. by rewrite (idemp_L (∪)).
Qed.

Lemma weight_fix_idemp (updates edge : record) :
  let fix_weight (r : record) :=
    match updates !! "duration" with
    | Some d => <["weight" := d]> r
    | None => r
    end in
  fix_weight (updates ∪ fix_weight (updates ∪ edge)) = fix_weight (updates ∪ edge).
Proof.
  simpl. destruct (updates !! "duration") as [d|] eqn:Hd.
  - apply map_eq. intros k. destruct (decide (k = "weight")) as [->|Hk].
    + by rewrite !lookup_insert_eq.
    + rewrite !lookup_insert_ne by done.
      destruct (updates !! k) as [v|] eqn:Hu.
      * by rewrite !(lookup_union_Some_l _ _ _ _ Hu).
      * rewrite !lookup_union_r by done.
        rewrite lookup_insert_ne by done. by rewrite lookup_union_r.
  - by rewrite (assoc_L (∪)), (idemp_L (∪)).
Qed.

(** X11. [update_edge] is idempotent: the same update applied twice to an
    edge returns the same record and leaves the same store as applied once,
    weight recomputation included. *)
Theorem update_edge_idempotent (s : GraphData) (edge_id : Z) (updates : record) :
  update_edge edge_id updates (update_edge edge_id updates s).2
  = update_edge edge_id updates s.
Proof.
  unfold update_edge at 2 3.
  destruct (PyDict.get edge_id (edges_dict s)) as [edge|] eqn:Hget; simpl.
  - unfold update_edge. simpl.
    rewrite pydict_get_setitem_eq, pydict_setitem_setitem.
    by rewrite (weight_fix_idemp updates edge).
  - unfold update_edge. by rewrite Hget.
Qed.

(** * Deleting twice *)

Lemma delete_node_gone node_id s :
  PyDict.contains node_id (nodes_dict (delete_node node_id s).2) = false.
Proof.
  unfold delete_node.
  destruct (PyDict.contains node_id (nodes_dict s)) eqn:Hin; [|done].
  apply pydict_contains_false.
  destruct (edges_to_remove _ _); simpl; apply pydict_get_delitem_eq.
Qed.

(** X12. Deleting is idempotent, in any state: a second [delete_node] with
    the same id returns [False] and changes nothing, and so does a second
    [delete_edge]. *)
Theorem delete_twice (s : GraphData) (k : Z) :
  delete_node k (delete_node k s).2 = (Ok false, (delete_node k s).2)
  ∧ delete_edge k (delete_edge k s).2 = (false, (delete_edge k s).2).
Proof.
  split.
  - apply delete_node_absent, delete_node_gone.
  - apply delete_edge_absent. unfold delete_edge.
    destruct (PyDict.contains k (edges_dict s)) eqn:Hin; [|done].
    simpl. apply pydict_contains_false, pydict_get_delitem_eq.
Qed.

(** X13. Once a node is deleted, no edge can be attached to its id: after
    [delete_node] of a node of a reachable state and any further calls other
    than [clear_all], [add_edge] with that id as source or as target returns
    [None] and changes nothing. *)
Theorem deleted_node_takes_no_edges (s : GraphData) (node_id : Z) (ops : list op) :
  reachable s →
  is_Some (get_node_by_id node_id s) →
  Forall (λ o, is_clear o = false) ops →
  ∀ other d c p q,
    let s' := execs ops (delete_node node_id s).2 in
    get_node_by_id node_id s' = None
    ∧ add_edge node_id other d c p q s' = (None, s')
    ∧ add_edge other node_id d c p q s' = (None, s').
Proof.
  intros Hok%reachable_store_ok [node Hget] Hops other d c p q s'.
  unfold get_node_by_id in *.
  assert (PyDict.get node_id (nodes_dict s') = None) as Hnone.
  { apply (absent_ids_stay_absent ops (delete_node node_id s).2 node_id Hops).
    - assert (node_id < node_counter s) as Hlt.
      { pose proof (store_ok_nodes_below s Hok) as Hall.
        rewrite Forall_forall in Hall. apply Hall.
        apply (list_elem_of_fmap_2 fst _ (node_id, node)).
        by apply pydict_get_Some_elem. }
      unfold delete_node. destruct (PyDict.contains _ _); [|done].
      by destruct (edges_to_remove _ _).
    - apply pydict_contains_false, delete_node_gone. }
  apply pydict_contains_false in Hnone as Hc.
  split; [done|]. unfold add_edge. rewrite Hc. simpl.
  split; [done|]. by rewrite orb_true_r.
Qed.

Lemma deleted_node_takes_no_edges_witness :
  reachable example_store
  ∧ is_Some (get_node_by_id 2 example_store)
  ∧ Forall (λ o, is_clear o = false) [AddNode (VStr "C") (VInt 0) (VInt 0)]
  ∧ add_edge 1 2 (VInt 0) (VInt 0) (VStr "") (VStr "")
      (execs [AddNode (VStr "C") (VInt 0) (VInt 0)]
         (delete_node 2 example_store).2)
    = (None,
       execs [AddNode (VStr "C") (VInt 0) (VInt 0)]
         (delete_node 2 example_store).2).
Proof.
  assert (reachable example_store) as Hr by (by exists example_ops).
  assert (is_Some (get_node_by_id 2 example_store)) as Hin by (by eexists).
  assert (Forall (λ o, is_clear o = false)
            [AddNode (VStr "C") (VInt 0) (VInt 0)]) as Hops.
  { repeat constructor. }
  repeat (split; [done|]).
  by destruct (deleted_node_takes_no_edges example_store 2 _ Hr Hin Hops
                 1 (VInt 0) (VInt 0) (VStr "") (VStr "")) as (_ & _ & ?).
Defined.

(** * Statistics need numbers *)

(** X14. When the ['cost'] or the ['duration'] of some edge is not a number
    (text, [None], a list, a dict), [get_graph_stats] raises instead of
    returning statistics, in any state. *)
Theorem stats_need_numbers (s : GraphData) (edge_id : Z) (edge : record)
    (key : string) (v : value) :
  get_edge_by_id edge_id s = Some edge →
  key = "cost" ∨ key = "duration" →
  edge !! key = Some v →
  as_number v = None →
  ∃ e, get_graph_stats s = Raise e.
Proof.
  intros Hget Hkey Hv Hnum.
  assert (v ∈ column key s) as Hin.
  { unfold column. apply list_elem_of_fmap. exists edge. split.
    - unfold field_or_zero. by rewrite Hv.
    - apply (list_elem_of_fmap_2 snd _ (edge_id, edge)).
      by apply pydict_get_Some_elem. }
  assert (is_Ok (get_graph_stats s) = false) as Hraise.
  { apply (stats_raises_on_non_number s v); [|done].
    destruct Hkey as [->| ->]; [by left|by right]. }
  destruct (get_graph_stats s) as [r|e]; [done|by exists e].
Qed.

Lemma stats_need_numbers_witness :
  let edge := default ∅ (get_edge_by_id 1 text_cost_store) in
  get_edge_by_id 1 text_cost_store = Some edge
  ∧ edge !! "cost" = Some (VStr "abc")
  ∧ as_number (VStr "abc") = None
  ∧ ∃ e, get_graph_stats text_cost_store = Raise e.
Proof.
  intros edge.
  assert (get_edge_by_id 1 text_cost_store = Some edge) as Hget
    by (vm_compute; reflexivity).
  assert (edge !! "cost" = Some (VStr "abc")) as Hcost
    by (vm_compute; reflexivity).
  split; [exact Hget|]. split; [exact Hcost|]. split; [reflexivity|].
  exact (stats_need_numbers text_cost_store 1 edge "cost" (VStr "abc")
           Hget (or_introl eq_refl) Hcost eq_refl).
Defined.

(** * Membership and equality *)

Lemma float_as_int_eq (f : float) (k : Z) :
  float_as_int f = Some k ↔ float_eq_int f k = true.
Proof.
  unfold float_as_int, float_eq_int.
  destruct (Prim2SF f) as [sg|sg| |sg m e]; try (split; done).
  - rewrite Z.eqb_eq. split; [by intros [= <-]|by intros ->].
  - set (z := if sg then Z.neg m else Z.pos m).
    destruct (0 <=? e) eqn:He.
    + rewrite Z.eqb_eq. split; [by intros [= <-]|by intros ->].
    + apply Z.leb_gt in He.
      assert (0 < 2 ^ (- e)) as Hp by (apply Z.pow_pos_nonneg; lia).
      rewrite Z.eqb_eq.
      destruct (z mod 2 ^ (- e) =? 0) eqn:Hm.
      * apply Z.eqb_eq in Hm. split.
        -- intros [= <-].
           rewrite (Z.div_mod z (2 ^ (- e))) at 1 by lia. lia.
        -- intros ->. by rewrite Z.div_mul by lia.
      * apply Z.eqb_neq in Hm. split; [done|].
        intros ->. by rewrite Z.mod_mul in Hm by lia.
Qed.

Lemma key_of_eq (v : value) (ko : option Z) (k : Z) :
  key_of v = Ok ko → ko = Some k ↔ py_eq_int v k = true.
Proof.
  unfold py_eq_int.
  destruct v; simpl; intros [= <-]; try (split; done).
  - rewrite Z.eqb_eq. split; [by intros [= <-]|by intros ->].
  - rewrite Z.eqb_eq. split; [by intros [= <-]|by intros ->].
  - apply float_as_int_eq.
Qed.

(** X15. [v in d] on a dict with int keys agrees with [==]: it raises
    exactly for a list or a dict (unhashable), and otherwise it is [True]
    exactly when some key of [d] is equal to [v] in Python's sense (the int
    itself, [True] for 1, [1.0] for 1), the test [delete_node] uses to find
    the edges of a node. *)
Theorem membership_is_equality {V} (v : value) (d : list (Z * V)) :
  (is_Ok (py_in v d) = false
   ↔ match v with VList _ | VDict _ => True | _ => False end)
  ∧ (∀ b, py_in v d = Ok b →
          b = true ↔ ∃ k, is_Some (PyDict.get k d) ∧ py_eq_int v k = true).
Proof.
  split.
  - unfold py_in. destruct v; simpl; split; done.
  - intros b. unfold py_in.
    destruct (key_of v) as [ko|e] eqn:Hkey; simpl; [|done].
    intros [= <-]. destruct ko as [k|].
    + rewrite pydict_contains_true. split.
      * intros Hin. exists k. split; [done|]. by apply (key_of_eq v (Some k) k).
      * intros (k' & Hin & Heq).
        apply (key_of_eq v (Some k) k' Hkey) in Heq. by simplify_eq.
    + split; [done|]. intros (k' & _ & Heq).
      by apply (key_of_eq v None k' Hkey) in Heq.
Qed.

Lemma membership_is_equality_witness :
  py_in (VFloat 1) (nodes_dict example_store) = Ok true
  ∧ ∃ k, is_Some (PyDict.get k (nodes_dict example_store))
         ∧ py_eq_int (VFloat 1) k = true.
Proof.
  assert (py_in (VFloat 1) (nodes_dict example_store) = Ok true) as Hin by done.
  split; [done|].
  destruct (membership_is_equality (VFloat 1) (nodes_dict example_store))
    as [_ Hiff].
  by apply (Hiff true Hin).
Defined.

(** * [add_edge] with endpoints of any kind *)

Lemma py_in_true {V} (v : value) (d : list (Z * V)) :
  py_in v d = Ok true →
  ∃ k, key_of v = Ok (Some k) ∧ PyDict.contains k d = true.
Proof.
  unfold py_in. destruct (key_of v) as [[k|]|e]; simpl; try done.
  intros [= Hin]. by exists k.
Qed.

(** On int endpoints the dynamic reading of [add_edge] is the typed one. *)
Lemma add_edge_dyn_int f t d c p q s :
  add_edge_dyn (VInt f) (VInt t) d c p q s
  = (Ok (add_edge f t d c p q s).1, (add_edge f t d c p q s).2).
Proof.
  unfold add_edge_dyn, add_edge, py_in. simpl.
  destruct (PyDict.contains f (nodes_dict s)); simpl; [|done].
  by destruct (PyDict.contains t (nodes_dict s)).
Qed.

Lemma add_edge_dyn_Some from_node to_node d c p q s edge s' :
  add_edge_dyn from_node to_node d c p q s = (Ok (Some edge), s') →
  (∃ kf kt,
     key_of from_node = Ok (Some kf) ∧ key_of to_node = Ok (Some kt)
     ∧ PyDict.contains kf (nodes_dict s) = true
     ∧ PyDict.contains kt (nodes_dict s) = true)
  ∧ edge = list_to_map
             [("id", VInt (edge_counter s));
              ("from", from_node); ("to", to_node);
              ("duration", d); ("cost", c); ("prerequisites", p);
              ("postrequisites", q); ("weight", d); ("metadata", VDict ∅)]
  ∧ s' = {| nodes_dict := nodes_dict s;
            edges_dict := PyDict.setitem (edge_counter s) edge (edges_dict s);
            node_counter := node_counter s;
            edge_counter := edge_counter s + 1 |}.
Proof.
  unfold add_edge_dyn.
  destruct (py_in from_node (nodes_dict s)) as [[|]|] eqn:Hf; try done.
  destruct (py_in to_node (nodes_dict s)) as [[|]|] eqn:Ht; try done.
  intros [= <- <-].
  apply py_in_true in Hf as (kf & Hkf & Hcf).
  apply py_in_true in Ht as (kt & Hkt & Hct).
  split; [by exists kf, kt|done].
Qed.

Lemma add_edge_dyn_unchanged from_node to_node d c p q s r s' :
  add_edge_dyn from_node to_node d c p q s = (r, s') →
  (∀ edge, r ≠ Ok (Some edge)) → s' = s.
Proof.
  unfold add_edge_dyn.
  destruct (py_in from_node (nodes_dict s)) as [[|]|]; try by intros [= <- <-].
  destruct (py_in to_node (nodes_dict s)) as [[|]|]; try by intros [= <- <-].
  intros [= <- <-] Hr. exfalso. by eapply Hr.
Qed.

(** * Runs of calls with endpoints of any kind *)

Lemma store_ok_add_edge_dyn from_node to_node d c p q s :
  store_ok s → store_ok (add_edge_dyn from_node to_node d c p q s).2.
Proof.
  intros Hok. unfold add_edge_dyn.
  destruct (py_in from_node (nodes_dict s)) as [[|]|]; try done.
  destruct (py_in to_node (nodes_dict s)) as [[|]|]; try done.
  destruct Hok as [Hn He Hnl Hel Hep Hnc Hec]. split; simpl; try done; try lia.
  - by apply pydict_wf_setitem.
  - apply pydict_keys_setitem_Forall; [lia|].
    eapply Forall_impl; [done|]. simpl. lia.
  - apply pydict_values_setitem_Forall; [|done].
    split; by eexists.
Qed.

Lemma store_ok_exec_call c s : store_ok s → store_ok (exec_call c s).
Proof.
  destruct c; simpl; [apply store_ok_exec|apply store_ok_add_edge_dyn].
Qed.

(** A property that every allowed call keeps, where the store invariant
    holds, holds after every run of allowed calls. *)
Lemma run_calls_invariant (I : GraphData → Prop) (allowed : op → bool) :
  (∀ c s, call_allowed allowed c = true → store_ok s → I s → I (exec_call c s)) →
  I init →
  ∀ cs, Forall (λ c, call_allowed allowed c = true) cs → I (run_calls cs init).
Proof.
  intros Hstep Hinit cs. unfold run_calls.
  assert (store_ok init) as Hok by apply store_ok_init.
  revert Hok Hinit. generalize init as s.
  induction cs as [|c cs IH]; intros s Hok Hs Hcs; simpl; [done|].
  apply Forall_cons in Hcs as [Hc Hcs].
  apply IH; [by apply store_ok_exec_call|by apply Hstep|done].
Qed.

Lemma endpoints_match_mono s s' edge :
  (∀ j, is_Some (get_node_by_id j s) → is_Some (get_node_by_id j s')) →
  endpoints_match s edge → endpoints_match s' edge.
Proof.
  intros Hmono (f & t & kf & kt & Hf & Ht & Hef & Het & Hfin & Htin).
  exists f, t, kf, kt. auto 10.
Qed.

Lemma py_eq_int_differ v k j :
  py_eq_int v k = true → py_eq_int v j = false → k ≠ j.
Proof. intros Hk Hj ->. congruence. Qed.

Lemma endpoints_match_exec o s :
  leaves_endpoints o = true → store_ok s →
  Forall (endpoints_match s) (get_edges_list s) →
  Forall (endpoints_match (exec o s)) (get_edges_list (exec o s)).
Proof.
  intros Ho Hok Hall. unfold get_edges_list in *.
  destruct o as [name x y|node_id updates|node_id|f t d c p q|edge_id updates|edge_id|];
    simpl.
  - eapply Forall_impl; [done|]. intros edge. apply endpoints_match_mono.
    intros j. unfold get_node_by_id. simpl. apply pydict_get_setitem_is_Some.
  - unfold update_node. destruct (PyDict.get _ _) eqn:Hget; simpl; [|done].
    eapply Forall_impl; [done|]. intros edge. apply endpoints_match_mono.
    intros j. unfold get_node_by_id. simpl. apply pydict_get_setitem_is_Some.
  - destruct (PyDict.contains node_id (nodes_dict s)) eqn:Hin;
      [|by rewrite delete_node_absent].
    rewrite delete_node_present by done. simpl.
    rewrite Forall_forall in Hall. apply Forall_forall.
    intros edge [[k e] [-> [Ht Hke]%list_elem_of_filter]]%list_elem_of_fmap.
    simpl in *.
    destruct (Hall e) as (f & t & kf & kt & Hf & Hto & Hef & Het & Hfin & Htin).
    { by apply (list_elem_of_fmap_2 snd _ (k, e)). }
    unfold touches in Ht. rewrite Hf, Hto in Ht.
    apply orb_false_iff in Ht as [Hfne Htne].
    exists f, t, kf, kt. unfold get_node_by_id in *. simpl.
    rewrite !pydict_get_delitem_ne; [done|..].
    + intros ->. congruence.
    + intros ->. congruence.
  - unfold add_edge.
    destruct (PyDict.contains f (nodes_dict s)) eqn:Hf; simpl; [|done].
    destruct (PyDict.contains t (nodes_dict s)) eqn:Ht; simpl; [|done].
    apply pydict_values_setitem_Forall; [|done].
    exists (VInt f), (VInt t), f, t. split; [done|]. split; [done|].
    unfold py_eq_int. simpl. rewrite !Z.eqb_refl. split; [done|]. split; [done|].
    unfold get_node_by_id. simpl. by split; apply pydict_contains_true.
  - apply andb_true_iff in Ho as [Hlf Hlt].
    destruct (PyDict.get edge_id (edges_dict s)) as [edge|] eqn:Hget;
      [|unfold update_edge; by rewrite Hget].
    destruct (update_edge_field edge_id updates s edge "from" Hget Hlf)
      as (edge' & Hrun & Hfrom); [done|].
    destruct (update_edge_field edge_id updates s edge "to" Hget Hlt)
      as (edge'' & Hrun' & Hto); [done|].
    rewrite Hrun in Hrun'. injection Hrun' as Heq.
    rewrite Hrun. simpl.
    assert (edge' !! "to" = edge !! "to") as Hto'.
    { apply (f_equal (PyDict.get edge_id)) in Heq.
      rewrite !pydict_get_setitem_eq in Heq. by simplify_eq. }
    apply pydict_values_setitem_Forall; [|done].
    destruct (pydict_get_values_Forall _ _ _ _ Hall Hget)
      as (f & t & kf & kt & Hf & Ht & Hef & Het & Hfin & Htin).
    exists f, t, kf, kt. by rewrite Hfrom, Hto'.
  - unfold delete_edge. destruct (PyDict.contains _ _); simpl; [|done].
    eapply pydict_sublist_values; [apply pydict_delitem_sublist|done].
  - constructor.
Qed.

Lemma endpoints_match_exec_call c s :
  call_allowed leaves_endpoints c = true → store_ok s →
  Forall (endpoints_match s) (get_edges_list s) →
  Forall (endpoints_match (exec_call c s)) (get_edges_list (exec_call c s)).
Proof.
  destruct c as [o|f t d c p q]; simpl; [apply endpoints_match_exec|].
  intros _ Hok Hall.
  destruct (add_edge_dyn f t d c p q s) as [[[edge|]|e] s'] eqn:Hadd; simpl.
  - apply add_edge_dyn_Some in Hadd
      as ((kf & kt & Hkf & Hkt & Hcf & Hct) & Hedge & ->).
    unfold get_edges_list in *. simpl.
    apply pydict_values_setitem_Forall; [|done].
    exists f, t, kf, kt. rewrite Hedge.
    split; [done|]. split; [done|].
    split; [by apply (key_of_eq f (Some kf) kf)|].
    split; [by apply (key_of_eq t (Some kt) kt)|].
    unfold get_node_by_id. simpl. by split; apply pydict_contains_true.
  - by rewrite (add_edge_dyn_unchanged _ _ _ _ _ _ _ _ _ Hadd).
  - by rewrite (add_edge_dyn_unchanged _ _ _ _ _ _ _ _ _ Hadd).
Qed.

(** X4. After any run of calls from a fresh store ([add_edge] with
    endpoints of any kind included) in which no [update_edge] writes ['from']
    or ['to'], both endpoints of every stored edge are equal, in Python's
    sense, to ids of nodes that are in the store: [add_edge] checks them and
    [delete_node] removes the edges of the node it deletes, so no edge
    dangles. *)
Theorem no_dangling_edges (cs : list call) :
  Forall (λ c, call_allowed leaves_endpoints c = true) cs →
  Forall (endpoints_match (run_calls cs init)) (get_edges_list (run_calls cs init)).
Proof.
  apply (run_calls_invariant
           (λ s, Forall (endpoints_match s) (get_edges_list s)) leaves_endpoints).
  - intros c s. apply endpoints_match_exec_call.
  - constructor.
Qed.

Lemma no_dangling_edges_witness :
  Forall (λ c, call_allowed leaves_endpoints c = true) dyn_calls
  ∧ PyDict.keys (edges_dict dyn_store) = [2]
  ∧ get_edge_by_id 2 dyn_store ≫= (.!! "from") = Some (VFloat 1)
  ∧ get_edge_by_id 2 dyn_store ≫= (.!! "to") = Some (VBool true)
  ∧ Forall (endpoints_match dyn_store) (get_edges_list dyn_store).
Proof.
  assert (Forall (λ c, call_allowed leaves_endpoints c = true) dyn_calls)
    as Hcs.
  { repeat constructor. }
  split; [exact Hcs|]. split; [vm_compute; reflexivity|].
  split; [vm_compute; reflexivity|]. split; [vm_compute; reflexivity|].
  exact (no_dangling_edges dyn_calls Hcs).
Defined.

Lemma weight_is_duration_exec_call c s :
  call_allowed leaves_weight c = true → store_ok s →
  Forall (λ edge, is_Some (edge !! "duration")
                  ∧ edge !! "weight" = edge !! "duration") (get_edges_list s) →
  Forall (λ edge, is_Some (edge !! "duration")
                  ∧ edge !! "weight" = edge !! "duration")
    (get_edges_list (exec_call c s)).
Proof.
  destruct c as [o|f t d c p q]; simpl; [apply weight_is_duration_exec|].
  intros _ Hok Hall.
  destruct (add_edge_dyn f t d c p q s) as [[[edge|]|e] s'] eqn:Hadd; simpl.
  - apply add_edge_dyn_Some in Hadd as (_ & Hedge & ->).
    unfold get_edges_list in *. simpl.
    apply pydict_values_setitem_Forall; [|done].
    rewrite Hedge. split; [by eexists|done].
  - by rewrite (add_edge_dyn_unchanged _ _ _ _ _ _ _ _ _ Hadd).
  - by rewrite (add_edge_dyn_unchanged _ _ _ _ _ _ _ _ _ Hadd).
Qed.

(** X6. After any run of calls from a fresh store in which every update
    is a dict, as annotated ([add_edge] may get endpoints of any kind), and
    no [update_edge] dict has ['weight'] without ['duration'], every stored
    edge has a ['duration'] and its ['weight'] is that same value.  The
    restriction to dicts matters: [update_edge] with the list of pairs
    [[['duration', v]]], which [dict.update] accepts as well, sets
    ['duration'] to [v] and leaves ['weight'] as it was. *)
Theorem weight_is_duration :
  (∀ cs,
     Forall (λ c, call_allowed leaves_weight c = true) cs →
     Forall (λ edge, is_Some (edge !! "duration")
                     ∧ edge !! "weight" = edge !! "duration")
       (get_edges_list (run_calls cs init)))
  ∧ (∀ s edge_id edge v,
       get_edge_by_id edge_id s = Some edge →
       ∃ edge',
         (update_edge_pairs edge_id [("duration", v)] s).1 = Some edge'
         ∧ get_edge_by_id edge_id
             (update_edge_pairs edge_id [("duration", v)] s).2 = Some edge'
         ∧ edge' !! "duration" = Some v
         ∧ edge' !! "weight" = edge !! "weight").
Proof.
  split.
  - apply (run_calls_invariant
      (λ s, Forall (λ edge, is_Some (edge !! "duration")
                            ∧ edge !! "weight" = edge !! "duration")
              (get_edges_list s)) leaves_weight).
    + intros c s. apply weight_is_duration_exec_call.
    + constructor.
  - intros s edge_id edge v Hget. unfold get_edge_by_id in *.
    unfold update_edge_pairs. rewrite Hget. simpl.
    eexists. split; [done|]. split; [apply pydict_get_setitem_eq|].
    split; [apply lookup_insert_eq|by apply lookup_insert_ne].
Qed.

Lemma weight_is_duration_witness :
  Forall (λ c, call_allowed leaves_weight c = true) dyn_calls
  ∧ Forall (λ edge, is_Some (edge !! "duration")
                    ∧ edge !! "weight" = edge !! "duration")
      (get_edges_list dyn_store)
  ∧ get_edge_by_id 2 dyn_store ≫= (.!! "weight") = Some (VFloat 5)
  ∧ ∃ edge',
      get_edge_by_id 2 (update_edge_pairs 2 [("duration", VInt 9)] dyn_store).2
      = Some edge'
      ∧ edge' !! "duration" = Some (VInt 9)
      ∧ edge' !! "weight" = Some (VFloat 5).
Proof.
  assert (Forall (λ c, call_allowed leaves_weight c = true) dyn_calls) as Hcs.
  { repeat constructor. }
  destruct weight_is_duration as [Hruns Hpairs].
  split; [exact Hcs|]. split; [exact (Hruns dyn_calls Hcs)|].
  split; [vm_compute; reflexivity|].
  assert (get_edge_by_id 2 dyn_store = Some dyn_edge) as Hget
    by (vm_compute; reflexivity).
  assert (dyn_edge !! "weight" = Some (VFloat 5)) as Hw
    by (vm_compute; reflexivity).
  destruct (Hpairs dyn_store 2 dyn_edge (VInt 9) Hget)
    as (edge' & _ & Hstored & Hd & Hkeep).
  exists edge'. split; [exact Hstored|]. split; [exact Hd|].
  rewrite Hkeep. exact Hw.
Defined.

(** * The handlers that create records *)

Lemma found_with_id (r : record) : is_Some (r !! "id") → found (Some r) = true.
Proof.
  intros Hid%map_size_ne_0_lookup_2. simpl.
  by destruct (size r).
Qed.

Lemma py_truthy_lookup (d : record) key :
  is_Some (d !! key) → py_truthy (VDict d) = true.
Proof. intros Hk%map_size_ne_0_lookup_2. simpl. by destruct (size d). Qed.

Lemma py_truthy_dict (d : record) : py_truthy (VDict d) = true ↔ d ≠ ∅.
Proof.
  rewrite <-map_size_non_empty_iff. simpl.
  destruct (size d); simpl; split; done.
Qed.

(** X16. POST /api/nodes either answers 201 or leaves the store as it is.
    It answers 201 exactly when the body is a non-empty object whose
    ['name'] (the empty text when there is none) is text that is not empty
    after [strip]; the node it then stores and returns is the one [add_node]
    makes for the stripped name, with the node counter as id and with ['x']
    and ['y'] from the body or 100.  So no node gets an empty or an
    unstripped name this way. *)
Theorem post_node_validates (py_strip : string → string) (data : value)
    (s : GraphData) (out : outcome) (s' : GraphData) :
  handle_nodes_post py_strip data s = (out, s') →
  (created out = false → s' = s)
  ∧ (created out = true
     ↔ ∃ d raw, data = VDict d ∧ d ≠ ∅
                ∧ default (VStr "") (d !! "name") = VStr raw
                ∧ py_strip raw ≠ "")
  ∧ (created out = true →
     ∃ d raw node,
       data = VDict d
       ∧ default (VStr "") (d !! "name") = VStr raw
       ∧ out = Response 201 (VDict node)
       ∧ add_node (VStr (py_strip raw))
           (default (VInt 100) (d !! "x")) (default (VInt 100) (d !! "y")) s
         = (node, s')
       ∧ node !! "name" = Some (VStr (py_strip raw))
       ∧ node !! "id" = Some (VInt (node_counter s))).
Proof.
  unfold handle_nodes_post.
  destruct (py_truthy data) eqn:Htruthy; simpl.
  2:{ intros [= <- <-]. split; [done|]. split; [|done]. split; [done|].
      intros (d & raw & -> & Hne%py_truthy_dict & _). congruence. }
  destruct data as [| | | | |l|d];
    try (intros [= <- <-]; split; [done|]; split; [|done]; split; [done|];
         by intros (? & ? & ? & _)).
  apply py_truthy_dict in Htruthy.
  destruct (default (VStr "") (d !! "name")) as [| | | |raw| |] eqn:Hname;
    try (intros [= <- <-]; split; [done|]; split; [|done]; split; [done|];
         intros (? & ? & ? & ? & ? & _); simplify_eq; congruence).
  destruct (py_strip raw) as [|a t] eqn:Hstrip; simpl.
  - intros [= <- <-]. split; [done|]. split; [|done]. split; [done|].
    intros (? & ? & ? & ? & ? & Hne). simplify_eq.
    assert (raw = x0) as <- by congruence. by rewrite Hstrip in Hne.
  - intros [= <- <-]. split; [done|]. split.
    + split; [|done]. intros _. exists d, raw. by rewrite Hstrip.
    + intros _. eexists d, raw, _. rewrite Hstrip.
      repeat (split; [done|]). done.
Qed.

Lemma post_node_validates_witness :
  let run := handle_nodes_post strip_ascii node_body example_store in
  strip_ascii "  Tarea 1 " = "Tarea 1"
  ∧ created run.1 = true
  ∧ ∃ d raw node,
      node_body = VDict d
      ∧ default (VStr "") (d !! "name") = VStr raw
      ∧ run.1 = Response 201 (VDict node)
      ∧ node !! "name" = Some (VStr (strip_ascii raw))
      ∧ node !! "id" = Some (VInt (node_counter example_store)).
Proof.
  intros run.
  assert (created run.1 = true) as Hc by (vm_compute; reflexivity).
  split; [vm_compute; reflexivity|]. split; [exact Hc|].
  destruct (post_node_validates strip_ascii node_body example_store
              run.1 run.2 (surjective_pairing run)) as (_ & _ & Hcreated).
  destruct (Hcreated Hc) as (d & raw & node & Hd & Hraw & Hout & _ & Hn & Hid).
  exists d, raw, node. repeat split; assumption.
Defined.

(** * The handler that creates edges *)

(** The answer of POST /api/edges once both endpoints are given. *)
Lemma handle_edges_post_given parse_float (d : record) from_node to_node s :
  d !! "from" = Some from_node → d !! "to" = Some to_node →
  from_node ≠ VNone → to_node ≠ VNone →
  handle_edges_post parse_float (VDict d) s
  = match py_float parse_float (default (VInt 0) (d !! "duration")) with
    | inr e => (Raised e, s)
    | inl duration =>
        match py_float parse_float (default (VInt 0) (d !! "cost")) with
        | inr e => (Raised e, s)
        | inl cost =>
            match add_edge_dyn from_node to_node (VFloat duration) (VFloat cost)
                    (default (VStr "") (d !! "prerequisites"))
                    (default (VStr "") (d !! "postrequisites")) s with
            | (Raise e, s') => (Raised (Exn e), s')
            | (Ok new_edge, s') =>
                if found new_edge then
                  (Response 201 (VDict (default ∅ new_edge)), s')
                else
                  (Response 400
                     (error_body
                        "No se pudo crear la arista. Verifica que los nodos existan"),
                   s')
            end
        end
    end.
Proof.
  intros Hf Ht Hfn Htn. unfold handle_edges_post.
  rewrite (py_truthy_lookup d "from") by (by eexists). simpl.
  rewrite Hf, Ht. by destruct from_node, to_node.
Qed.

Lemma handle_edges_post_not_given parse_float (d : record) s :
  (d !! "from" = None ∨ d !! "from" = Some VNone
   ∨ d !! "to" = None ∨ d !! "to" = Some VNone) →
  ∃ body, handle_edges_post parse_float (VDict d) s = (Response 400 body, s).
Proof.
  intros H. unfold handle_edges_post.
  destruct (negb (py_truthy (VDict d))); [by eexists|].
  destruct (d !! "from") as [[]|], (d !! "to") as [[]|];
    try (by eexists); by destruct H as [?|[?|[?|?]]].
Qed.

(** What a 201 of POST /api/edges means for the store. *)
Lemma handle_edges_post_created parse_float data s out s' :
  handle_edges_post parse_float data s = (out, s') →
  created out = true →
  ∃ (d : record) from_node to_node duration cost edge,
    data = VDict d
    ∧ add_edge_dyn from_node to_node (VFloat duration) (VFloat cost)
        (default (VStr "") (d !! "prerequisites"))
        (default (VStr "") (d !! "postrequisites")) s
      = (Ok (Some edge), s')
    ∧ out = Response 201 (VDict edge).
Proof.
  intros Hrun Hc.
  destruct data as [| | | | |l|d];
    try (unfold handle_edges_post in Hrun;
         destruct (negb (py_truthy _)); simplify_eq; done).
  destruct (d !! "from") as [from_node|] eqn:Hf.
  2:{ destruct (handle_edges_post_not_given parse_float d s) as [body Hb];
        [by left|]. rewrite Hb in Hrun. by simplify_eq. }
  destruct (d !! "to") as [to_node|] eqn:Ht.
  2:{ destruct (handle_edges_post_not_given parse_float d s) as [body Hb];
        [by right; right; left|]. rewrite Hb in Hrun. by simplify_eq. }
  assert (from_node = VNone ∨ from_node ≠ VNone) as [->|Hfn]
    by (destruct from_node; [by left|by right..]).
  { destruct (handle_edges_post_not_given parse_float d s) as [body Hb];
      [by right; left|]. rewrite Hb in Hrun. by simplify_eq. }
  assert (to_node = VNone ∨ to_node ≠ VNone) as [->|Htn]
    by (destruct to_node; [by left|by right..]).
  { destruct (handle_edges_post_not_given parse_float d s) as [body Hb];
      [by right; right; right|]. rewrite Hb in Hrun. by simplify_eq. }
  rewrite (handle_edges_post_given _ _ _ _ _ Hf Ht Hfn Htn) in Hrun.
  destruct (py_float parse_float (default (VInt 0) (d !! "duration")))
    as [duration|e]; [|by simplify_eq].
  destruct (py_float parse_float (default (VInt 0) (d !! "cost")))
    as [cost|e]; [|by simplify_eq].
  destruct (add_edge_dyn _ _ _ _ _ _ _) as [[[edge|]|e] s2] eqn:Hadd;
    simpl in Hrun; [|by simplify_eq..].
  destruct (negb _); simplify_eq.
  by exists d, from_node, to_node, duration, cost, edge.
Qed.

Lemma handle_edges_post_not_created parse_float data s out s' :
  handle_edges_post parse_float data s = (out, s') →
  created out = false → s' = s.
Proof.
  intros Hrun Hc.
  destruct data as [| | | | |l|d];
    try (unfold handle_edges_post in Hrun;
         destruct (negb (py_truthy _)); by simplify_eq).
  destruct (d !! "from") as [from_node|] eqn:Hf.
  2:{ destruct (handle_edges_post_not_given parse_float d s) as [body Hb];
        [by left|]. rewrite Hb in Hrun. by simplify_eq. }
  destruct (d !! "to") as [to_node|] eqn:Ht.
  2:{ destruct (handle_edges_post_not_given parse_float d s) as [body Hb];
        [by right; right; left|]. rewrite Hb in Hrun. by simplify_eq. }
  assert (from_node = VNone ∨ from_node ≠ VNone) as [->|Hfn]
    by (destruct from_node; [by left|by right..]).
  { destruct (handle_edges_post_not_given parse_float d s) as [body Hb];
      [by right; left|]. rewrite Hb in Hrun. by simplify_eq. }
  assert (to_node = VNone ∨ to_node ≠ VNone) as [->|Htn]
    by (destruct to_node; [by left|by right..]).
  { destruct (handle_edges_post_not_given parse_float d s) as [body Hb];
      [by right; right; right|]. rewrite Hb in Hrun. by simplify_eq. }
  rewrite (handle_edges_post_given _ _ _ _ _ Hf Ht Hfn Htn) in Hrun.
  destruct (py_float parse_float (default (VInt 0) (d !! "duration")))
    as [duration|e]; [|by simplify_eq].
  destruct (py_float parse_float (default (VInt 0) (d !! "cost")))
    as [cost|e]; [|by simplify_eq].
  destruct (add_edge_dyn _ _ _ _ _ _ _) as [r s2] eqn:Hadd.
  assert ((∀ edge, r ≠ Ok (Some edge)) → s' = s) as Hsame.
  { intros Hr. rewrite (add_edge_dyn_unchanged _ _ _ _ _ _ _ _ _ Hadd Hr) in Hrun.
    destruct r as [new_edge|e]; [destruct (found new_edge)|]; by simplify_eq. }
  destruct r as [[edge|]|e]; [|by apply Hsame..].
  cbv beta iota in Hrun.
  assert (found (Some edge) = true) as Hfound.
  { apply add_edge_dyn_Some in Hadd as (_ & -> & _). by apply found_with_id. }
  rewrite Hfound in Hrun. by simplify_eq.
Qed.




